(** * youtube.py: a shallow embedding and its properties

    The program is one Python script, [src/youtube.py]: a URL validator
    ([is_valid_url]), a downloader ([download_video]) that drives the pytube
    library, and an interactive shell ([main]).

    Conventions of the embedding.
    - A Python [str] is a [string]: the bytes of its UTF-8 encoding.  Every
      string operation the script and [urllib.parse] perform looks for ASCII
      characters only, and on UTF-8 text those are found at the same places
      byte-wise as code-point-wise.
    - A Python call that may raise returns an [outcome]: [Return v] or
      [Raise e].
    - Console, standard input and the calls made to pytube are threaded
      through a [world]; effects performed before an exception is raised stay
      performed. *)

From Stdlib Require Import String Ascii List Bool Arith NArith Lia.
Import ListNotations.
Local Open Scope string_scope.
Local Open Scope bool_scope.

(** ** Exceptions and outcomes *)

(** The exception classes that matter to the script's [except] clauses.
    [KeyboardInterrupt] and [SystemExit] derive from [BaseException] only;
    every other constructor is a subclass of [Exception]. *)
Inductive exn : Type :=
| ValueError (msg : string)
| PytubeError (msg : string)
| EOFError (msg : string)
| OSError (msg : string)
| OtherException (msg : string)
| KeyboardInterrupt
| SystemExit (code : nat).

(** [isinstance(e, Exception)] *)
Definition is_Exception (e : exn) : bool :=
  match e with
  | KeyboardInterrupt | SystemExit _ => false
  | _ => true
  end.

(** [isinstance(e, PytubeError)] *)
Definition is_PytubeError (e : exn) : bool :=
  match e with
  | PytubeError _ => true
  | _ => false
  end.

(** [isinstance(e, KeyboardInterrupt)] *)
Definition is_KeyboardInterrupt (e : exn) : bool :=
  match e with
  | KeyboardInterrupt => true
  | _ => false
  end.

(** [str(e)]: the text an f-string shows for [{e}]. *)
Definition str_exn (e : exn) : string :=
  match e with
  | ValueError m | PytubeError m | EOFError m | OSError m | OtherException m => m
  | KeyboardInterrupt => EmptyString
  | SystemExit _ => EmptyString
  end.

Inductive outcome (A : Type) : Type :=
| Return (a : A)
| Raise (e : exn).
Arguments Return {A} a.
Arguments Raise {A} e.

Definition obind {A B : Type} (o : outcome A) (k : A -> outcome B) : outcome B :=
  match o with
  | Return a => k a
  | Raise e => Raise e
  end.

(** ** Python string operations on [string] *)

Module Str.

Definition code (c : ascii) : nat := nat_of_ascii c.

(** [c.isascii()] for the character a byte starts. *)
Definition isascii_char (c : ascii) : bool := Nat.ltb (code c) 128.

Definition isupper_ascii (c : ascii) : bool := Nat.leb 65 (code c) && Nat.leb (code c) 90.
Definition islower_ascii (c : ascii) : bool := Nat.leb 97 (code c) && Nat.leb (code c) 122.
Definition isdigit_ascii (c : ascii) : bool := Nat.leb 48 (code c) && Nat.leb (code c) 57.

(** [c.isascii() and c.isalpha()] *)
Definition isalpha_ascii (c : ascii) : bool := isupper_ascii c || islower_ascii c.

Definition lower_char (c : ascii) : ascii :=
  if isupper_ascii c then ascii_of_nat (code c + 32) else c.

(** [s.lower()] on ASCII letters; the bytes of other characters are kept.
    The script lower-cases a quality only to compare it with ASCII words, and
    no character outside ASCII lower-cases to a letter of those words (the
    one with an ASCII lower case is U+212A, to [k]), so the comparisons come
    out as in Python. *)
Fixpoint lower (s : string) : string :=
  match s with
  | EmptyString => EmptyString
  | String c s' => String (lower_char c) (lower s')
  end.

Fixpoint all (p : ascii -> bool) (s : string) : bool :=
  match s with
  | EmptyString => true
  | String c s' => p c && all p s'
  end.

(** [s.isascii()] *)
Definition isascii (s : string) : bool := all isascii_char s.

(** [c in s] for a single character [c]. *)
Fixpoint has_char (c : ascii) (s : string) : bool :=
  match s with
  | EmptyString => false
  | String d s' => Ascii.eqb c d || has_char c s'
  end.

(** [s.startswith(p)] *)
Fixpoint startswith (p s : string) : bool :=
  match p, s with
  | EmptyString, _ => true
  | String a p', String b s' => Ascii.eqb a b && startswith p' s'
  | String _ _, EmptyString => false
  end.

(** [needle in s] *)
Fixpoint contains (needle s : string) : bool :=
  startswith needle s ||
  match s with
  | EmptyString => false
  | String _ s' => contains needle s'
  end.

(** [s[:n]] and [s[n:]] for [n >= 0]. *)
Fixpoint take (n : nat) (s : string) : string :=
  match n, s with
  | S n', String c s' => String c (take n' s')
  | _, _ => EmptyString
  end.

Fixpoint drop (n : nat) (s : string) : string :=
  match n, s with
  | S n', String _ s' => drop n' s'
  | _, _ => s
  end.

(** [s.find(c)]: [None] stands for -1. *)
Fixpoint find (c : ascii) (s : string) : option nat :=
  match s with
  | EmptyString => None
  | String d s' =>
      if Ascii.eqb c d then Some 0
      else match find c s' with
           | Some i => Some (S i)
           | None => None
           end
  end.

(** [s.find(c, start)] *)
Definition find_from (c : ascii) (start : nat) (s : string) : option nat :=
  if Nat.ltb (String.length s) start then None
  else match find c (drop start s) with
       | Some i => Some (start + i)
       | None => None
       end.

(** [s.rfind(c)] *)
Fixpoint rfind (c : ascii) (s : string) : option nat :=
  match s with
  | EmptyString => None
  | String d s' =>
      match rfind c s' with
      | Some i => Some (S i)
      | None => if Ascii.eqb c d then Some 0 else None
      end
  end.

(** [s.lstrip(chars)], the set of characters given as a predicate. *)
Fixpoint lstrip (p : ascii -> bool) (s : string) : string :=
  match s with
  | EmptyString => EmptyString
  | String c s' => if p c then lstrip p s' else s
  end.

(** [s.replace(c, "")] for a single character [c]. *)
Fixpoint remove (c : ascii) (s : string) : string :=
  match s with
  | EmptyString => EmptyString
  | String d s' => if Ascii.eqb c d then remove c s' else String d (remove c s')
  end.

(** [s.partition(c)]: (before, separator found, after); when the separator
    is absent Python returns [(s, '', '')]. *)
Definition partition (c : ascii) (s : string) : string * bool * string :=
  match find c s with
  | Some i => (take i s, true, drop (S i) s)
  | None => (s, false, EmptyString)
  end.

(** [s.rpartition(c)]: split at the last occurrence; when the separator is
    absent Python returns [('', '', s)]. *)
Definition rpartition (c : ascii) (s : string) : string * bool * string :=
  match rfind c s with
  | Some i => (take i s, true, drop (S i) s)
  | None => (EmptyString, false, s)
  end.

(** [x in xs] for a list of strings. *)
Definition mem (x : string) (xs : list string) : bool :=
  existsb (String.eqb x) xs.

End Str.

(** ** [urllib.parse]: [urlsplit] and [urlparse]

    [is_valid_url] calls the standard library's [urlparse].  The functions
    below follow CPython 3.11's [Lib/urllib/parse.py] (with its security
    fixes for bracketed hosts) for [str] arguments with the default
    [scheme=''] and [allow_fragments=True].  Two pieces of
    the library reach into Unicode tables and the [ipaddress] and [re]
    modules; they are taken as given ([Checks]). *)

Module Urllib.
Import Str.

Class Checks : Type := {
  (** [unicodedata.normalize('NFKC', s)] *)
  unicodedata_normalize_NFKC : string -> string;
  (** [_check_bracketed_host(hostname)]: raises [ValueError] unless the text
      between the brackets is an IPv6 or IPvFuture address. *)
  _check_bracketed_host : string -> outcome unit
}.

Definition TAB : ascii := "009"%char.
Definition LF : ascii := "010"%char.
Definition CR : ascii := "013"%char.

(** [c in scheme_chars] *)
Definition in_scheme_chars (c : ascii) : bool :=
  isalpha_ascii c || isdigit_ascii c || has_char c "+-.".

(** [c in _WHATWG_C0_CONTROL_OR_SPACE] *)
Definition is_c0_control_or_space (c : ascii) : bool := Nat.leb (code c) 32.

Definition uses_params : list string :=
  [EmptyString; "ftp"; "hdl"; "prospero"; "http"; "imap";
   "https"; "shttp"; "rtsp"; "rtspu"; "sip"; "sips";
   "mms"; "sftp"; "tel"].

Record SplitResult : Type := mkSplit {
  split_scheme : string;
  split_netloc : string;
  split_path : string;
  split_query : string;
  split_fragment : string
}.

Record ParseResult : Type := mkParse {
  scheme : string;
  netloc : string;
  path : string;
  params : string;
  query : string;
  fragment : string
}.

Definition _splitparams (url : string) : string * string :=
  let cut (i : option nat) :=
    match i with
    | Some i => (take i url, drop (S i) url)
    | None => (take (String.length url - 1) url, url)
    end in
  if has_char "/" url then
    match find_from ";" (match rfind "/" url with Some r => r | None => 0 end) url with
    | None => (url, EmptyString)
    | Some i => cut (Some i)
    end
  else cut (find ";" url).

Definition _splitnetloc (url : string) (start : nat) : string * string :=
  let delim :=
    fold_left
      (fun delim c =>
         match find_from c start url with
         | Some wdelim => Nat.min delim wdelim
         | None => delim
         end)
      ["/"; "?"; "#"]%char (String.length url) in
  (take (delim - start) (drop start url), drop delim url).

Section WithChecks.
Context {checks : Checks}.

Definition _checknetloc (netloc : string) : outcome unit :=
  if String.eqb netloc EmptyString || isascii netloc then Return tt
  else
    let n := remove "?" (remove "#" (remove ":" (remove "@" netloc))) in
    let netloc2 := unicodedata_normalize_NFKC n in
    if String.eqb n netloc2 then Return tt
    else if existsb (fun c => has_char c netloc2) ["/"; "?"; "#"; "@"; ":"]%char
         then Raise (ValueError ("netloc '" ++ netloc ++
                       "' contains invalid characters under NFKC normalization"))
         else Return tt.

Definition _check_bracketed_netloc (netloc : string) : outcome unit :=
  let '(_, _, hostname_and_port) := rpartition "@" netloc in
  let '(before_bracket, have_open_br, bracketed) := partition "[" hostname_and_port in
  if have_open_br then
    if negb (String.eqb before_bracket EmptyString)
    then Raise (ValueError "Invalid IPv6 URL")
    else
      let '(hostname, _, port) := partition "]" bracketed in
      if negb (String.eqb port EmptyString) && negb (startswith ":" port)
      then Raise (ValueError "Invalid IPv6 URL")
      else _check_bracketed_host hostname
  else
    let '(hostname, _, _) := partition ":" hostname_and_port in
    _check_bracketed_host hostname.

Definition urlsplit (url : string) : outcome SplitResult :=
  let url := lstrip is_c0_control_or_space url in
  let url := remove LF (remove CR (remove TAB url)) in
  let '(scheme, url) :=
    match find ":" url, url with
    | Some (S i), String c0 _ =>
        if isalpha_ascii c0 && all in_scheme_chars (take (S i) url)
        then (lower (take (S i) url), drop (S (S i)) url)
        else (EmptyString, url)
    | _, _ => (EmptyString, url)
    end in
  obind
    (if String.eqb (take 2 url) "//" then
       let '(netloc, url) := _splitnetloc url 2 in
       if (has_char "[" netloc && negb (has_char "]" netloc))
          || (has_char "]" netloc && negb (has_char "[" netloc))
       then Raise (ValueError "Invalid IPv6 URL")
       else
         obind (if has_char "[" netloc && has_char "]" netloc
                then _check_bracketed_netloc netloc
                else Return tt)
               (fun _ => Return (netloc, url))
     else Return (EmptyString, url))
    (fun '(netloc, url) =>
       let '(url, fragment) :=
         if has_char "#" url
         then let '(a, _, b) := partition "#" url in (a, b)
         else (url, EmptyString) in
       let '(url, query) :=
         if has_char "?" url
         then let '(a, _, b) := partition "?" url in (a, b)
         else (url, EmptyString) in
       obind (_checknetloc netloc)
             (fun _ => Return (mkSplit scheme netloc url query fragment))).

Definition urlparse (url : string) : outcome ParseResult :=
  obind (urlsplit url)
    (fun '(mkSplit scheme netloc url query fragment) =>
       let '(url, params) :=
         if mem scheme uses_params && has_char ";" url
         then _splitparams url
         else (url, EmptyString) in
       Return (mkParse scheme netloc url params query fragment)).

End WithChecks.

(** The [_hostinfo] property of a parse result: host and port texts of the
    network location, user information dropped. *)
Definition _hostinfo (r : ParseResult) : string * option string :=
  let '(_, _, hostinfo) := rpartition "@" (netloc r) in
  let '(_, have_open_br, bracketed) := partition "[" hostinfo in
  let '(hostname, port) :=
    if have_open_br then
      let '(hostname, _, port) := partition "]" bracketed in
      let '(_, _, port) := partition ":" port in
      (hostname, port)
    else
      let '(hostname, _, port) := partition ":" hostinfo in
      (hostname, port) in
  (hostname, if String.eqb port EmptyString then None else Some port).

(** The [hostname] property: the host, lower-cased up to a zone suffix. *)
Definition hostname (r : ParseResult) : option string :=
  let h := fst (_hostinfo r) in
  if String.eqb h EmptyString then None
  else
    let '(h, percent, zone) := partition "%" h in
    Some (lower h ++ (if percent then "%" else EmptyString) ++ zone).

End Urllib.

(** ** The world the script runs in *)

(** Calls made to pytube, in the order they are made. *)
Inductive call : Type :=
| CallYouTube (url : string)
| CallStreams
| CallGetHighestResolution
| CallGetLowestResolution
| CallFilterOnlyAudio
| CallFirst
| CallDownload (output_path : string).

(** [stdin]: what each coming [input()] yields (a line, or an exception such
    as [KeyboardInterrupt]); when nothing is left [input()] raises [EOFError].
    [stdout]: the texts printed so far, oldest first.
    [calls]: the pytube calls made so far, oldest first. *)
Record world : Type := mkWorld {
  stdin : list (outcome string);
  stdout : list string;
  calls : list call
}.

Definition M (A : Type) : Type := world -> outcome A * world.

Definition ret {A : Type} (a : A) : M A := fun w => (Return a, w).

Definition raise {A : Type} (e : exn) : M A := fun w => (Raise e, w).

Definition bind {A B : Type} (m : M A) (k : A -> M B) : M B :=
  fun w =>
    match m w with
    | (Return a, w') => k a w'
    | (Raise e, w') => (Raise e, w')
    end.

Declare Scope py_scope.
Delimit Scope py_scope with py.
Notation "x <- m ;; k" := (bind m (fun x => k))
  (at level 61, m at next level, right associativity) : py_scope.
Notation "m ;; k" := (bind m (fun _ => k))
  (at level 61, right associativity) : py_scope.
Local Open Scope py_scope.

(** The value or exception of a call that touches nothing of the world. *)
Definition lift {A : Type} (o : outcome A) : M A := fun w => (o, w).

(** [try: body except ...: handler]: [handler e] is [None] when no [except]
    clause matches [e], which then propagates. *)
Definition try_except {A : Type} (body : M A) (handler : exn -> option (M A)) : M A :=
  fun w =>
    match body w with
    | (Return a, w') => (Return a, w')
    | (Raise e, w') =>
        match handler e with
        | Some h => h w'
        | None => (Raise e, w')
        end
    end.

Definition print (s : string) : M unit :=
  fun w => (Return tt, mkWorld (stdin w) (stdout w ++ [s])%list (calls w)).

(** [input(prompt)]: the prompt is written, then a line is read. *)
Definition input (prompt : string) : M string :=
  fun w =>
    let out := (stdout w ++ [prompt])%list in
    match stdin w with
    | [] => (Raise (EOFError "EOF when reading a line"), mkWorld [] out (calls w))
    | o :: rest => (o, mkWorld rest out (calls w))
    end.

(** A call to pytube: logged, then its value or exception. *)
Definition collaborator {A : Type} (c : call) (o : outcome A) : M A :=
  fun w => (o, mkWorld (stdin w) (stdout w) (calls w ++ [c])%list).

(** ** What the script imports *)

(** The part of pytube that [download_video] uses.  pytube is a third-party
    library; the script's code is verified against any implementation of
    these calls. *)
Class Pytube : Type := {
  YT : Type;
  StreamQuery : Type;
  Stream : Type;
  (** [YouTube(url)] *)
  YouTube : string -> outcome YT;
  (** [yt.streams] *)
  streams : YT -> outcome StreamQuery;
  (** [q.get_highest_resolution()] *)
  get_highest_resolution : StreamQuery -> outcome (option Stream);
  (** [q.get_lowest_resolution()] *)
  get_lowest_resolution : StreamQuery -> outcome (option Stream);
  (** [q.filter(only_audio=True)] *)
  filter_only_audio : StreamQuery -> outcome StreamQuery;
  (** [q.first()] *)
  first : StreamQuery -> outcome (option Stream);
  (** [stream.download(output_path=...)] *)
  download : Stream -> string -> outcome string
}.

(** The part of [os] that the script uses. *)
Class OperatingSystem : Type := {
  (** [os.makedirs(path, exist_ok=True)] *)
  makedirs : string -> outcome unit;
  (** [os.path.abspath(path)] *)
  abspath : string -> string;
  (** [os.path.getsize(path)] *)
  getsize : string -> outcome N;
  (** the text of [f"{size / (1024*1024):.2f}"] *)
  format_megabytes : N -> string
}.

(** ** The script *)

Module Colors.
Definition ESC : ascii := "027"%char.
Definition GREEN : string := String ESC "[92m".
Definition YELLOW : string := String ESC "[93m".
Definition RED : string := String ESC "[91m".
Definition BLUE : string := String ESC "[94m".
Definition END : string := String ESC "[0m".
Definition BOLD : string := String ESC "[1m".
End Colors.

(** [os.path.join("src", "videos")] on a POSIX system. *)
Definition VIDEOS_DIR : string := "src/videos".

Definition SUPPORTED_QUALITIES : list string := ["highest"; "lowest"; "audio"].

Definition NL : string := String Urllib.LF EmptyString.

Definition banner : string :=
  NL ++ Colors.BOLD ++ Colors.BLUE ++ NL ++
  "####################################" ++ NL ++
  "#                                  #" ++ NL ++
  "#       YouTube Downloader         #" ++ NL ++
  "#                                  #" ++ NL ++
  "####################################" ++ NL ++
  Colors.END ++ NL.

(** The messages the script prints. *)
Definition msg_invalid_url : string :=
  Colors.RED ++ "❌ URL inválida!" ++ Colors.END.
Definition msg_no_stream : string :=
  Colors.RED ++ "❌ Nenhum stream disponível para a qualidade selecionada." ++ Colors.END.
Definition msg_pytube_error (e : exn) : string :=
  Colors.RED ++ "❌ Erro no YouTube: " ++ str_exn e ++ Colors.END.
Definition msg_download_error (e : exn) : string :=
  Colors.RED ++ "❌ Falha ao baixar o vídeo: " ++ str_exn e ++ Colors.END.
Definition msg_qualities : string :=
  Colors.YELLOW ++ "→ Qualidades disponíveis: " ++
  String.concat ", " SUPPORTED_QUALITIES ++ Colors.END.
Definition prompt_url : string :=
  Colors.BOLD ++ "🔗 Cole a URL do vídeo: " ++ Colors.END.
Definition prompt_quality : string :=
  Colors.BOLD ++ "📊 Qualidade desejada [" ++ hd EmptyString SUPPORTED_QUALITIES ++
  "]: " ++ Colors.END.
Definition msg_invalid_quality : string :=
  Colors.YELLOW ++ "⚠️  Qualidade inválida. Usando 'highest' como padrão." ++ Colors.END.
Definition msg_processing : string :=
  Colors.BLUE ++ "⏳ Processando..." ++ Colors.END.
Definition msg_done : string :=
  Colors.GREEN ++ "✅ Download concluído!" ++ Colors.END.
Definition msg_saved (abs : string) : string :=
  Colors.BOLD ++ "📁 Arquivo salvo em: " ++ abs ++ Colors.END.
Definition msg_size (mb : string) : string :=
  Colors.GREEN ++ "Tamanho: " ++ mb ++ " MB" ++ Colors.END.
Definition msg_failed : string :=
  Colors.RED ++ "❌ Falha ao baixar o vídeo." ++ Colors.END.
Definition msg_cancelled : string :=
  NL ++ Colors.YELLOW ++ "⚠️  Operação cancelada pelo usuário." ++ Colors.END.

(** [s.strip()]: Python's white space is the code points 9-13, 28-32, U+0085,
    U+00A0, U+1680, U+2000-U+200A, U+2028, U+2029, U+202F, U+205F and U+3000,
    met here as the one, two or three bytes of their UTF-8 encoding. *)
Module Whitespace.
Import Str.

Definition between (lo n hi : nat) : bool := Nat.leb lo n && Nat.leb n hi.

Definition ws1 (a : ascii) : bool :=
  between 9 (code a) 13 || between 28 (code a) 32.

Definition ws2 (a b : ascii) : bool :=
  Nat.eqb (code a) 194 && (Nat.eqb (code b) 133 || Nat.eqb (code b) 160).

Definition ws3 (a b c : ascii) : bool :=
  (Nat.eqb (code a) 225 && Nat.eqb (code b) 154 && Nat.eqb (code c) 128)
  || (Nat.eqb (code a) 226 && Nat.eqb (code b) 128
      && (between 128 (code c) 138 || between 168 (code c) 169 || Nat.eqb (code c) 175))
  || (Nat.eqb (code a) 226 && Nat.eqb (code b) 129 && Nat.eqb (code c) 159)
  || (Nat.eqb (code a) 227 && Nat.eqb (code b) 128 && Nat.eqb (code c) 128).

(** Leading white space removed; with [backwards] the string is read from
    its end, so the bytes of a character come last byte first. *)
Fixpoint skip (backwards : bool) (s : string) : string :=
  match s with
  | EmptyString => EmptyString
  | String a s1 =>
      if ws1 a then skip backwards s1
      else
        match s1 with
        | EmptyString => s
        | String b s2 =>
            if (if backwards then ws2 b a else ws2 a b) then skip backwards s2
            else
              match s2 with
              | EmptyString => s
              | String c s3 =>
                  if (if backwards then ws3 c b a else ws3 a b c)
                  then skip backwards s3
                  else s
              end
        end
  end.

Fixpoint reverse_onto (s acc : string) : string :=
  match s with
  | EmptyString => acc
  | String c s' => reverse_onto s' (String c acc)
  end.

Definition reverse (s : string) : string := reverse_onto s EmptyString.

Definition lstrip (s : string) : string := skip false s.
Definition rstrip (s : string) : string := reverse (skip true (reverse s)).
Definition strip (s : string) : string := rstrip (lstrip s).

End Whitespace.

Section Script.
Context {checks : Urllib.Checks} {pytube : Pytube} {os : OperatingSystem}.

Definition setup_environment : M unit :=
  lift (makedirs VIDEOS_DIR).

Definition display_banner : M unit :=
  print banner.

(** The body of the [try] in [is_valid_url]. *)
Definition is_valid_url_try (url : string) : outcome bool :=
  obind (Urllib.urlparse url)
    (fun result =>
       Return (forallb (fun b : bool => b)
                 [ Str.mem (Urllib.scheme result) ["http"; "https"];
                   Str.contains "youtube.com" (Urllib.netloc result)
                   || Str.contains "youtu.be" (Urllib.netloc result) ])).

(** [except: return False] catches whatever the body raises. *)
Definition is_valid_url (url : string) : outcome bool :=
  match is_valid_url_try url with
  | Return b => Return b
  | Raise _ => Return false
  end.

Definition get_user_input : M (string * string) :=
  print msg_qualities ;;
  url <- input prompt_url ;;
  let url := Whitespace.strip url in
  quality <- input prompt_quality ;;
  let quality := Whitespace.strip quality in
  let quality :=
    if String.eqb quality EmptyString then hd EmptyString SUPPORTED_QUALITIES else quality in
  ret (url, quality).

(** The body of the [try] in [download_video]: the file path, or [None] when
    no stream was selected. *)
Definition download_video_try (url quality : string) : M (option string) :=
  yt <- collaborator (CallYouTube url) (YouTube url) ;;
  stream <-
    (if String.eqb quality "highest" then
       q <- collaborator CallStreams (streams yt) ;;
       collaborator CallGetHighestResolution (get_highest_resolution q)
     else if String.eqb quality "lowest" then
       q <- collaborator CallStreams (streams yt) ;;
       collaborator CallGetLowestResolution (get_lowest_resolution q)
     else if String.eqb quality "audio" then
       q <- collaborator CallStreams (streams yt) ;;
       q <- collaborator CallFilterOnlyAudio (filter_only_audio q) ;;
       collaborator CallFirst (first q)
     else ret None) ;;
  match stream with
  | None =>
      print msg_no_stream ;;
      ret None
  | Some stream =>
      output_path <- collaborator (CallDownload VIDEOS_DIR) (download stream VIDEOS_DIR) ;;
      ret (Some output_path)
  end.

(** The [except] clauses of [download_video]; after either the function
    falls through to its final [return None]. *)
Definition download_video_except (e : exn) : option (M (option string)) :=
  if is_PytubeError e then Some (print (msg_pytube_error e) ;; ret None)
  else if is_Exception e then Some (print (msg_download_error e) ;; ret None)
  else None.

Definition download_video (url quality : string) : M (option string) :=
  valid <- lift (is_valid_url url) ;;
  if negb valid then
    print msg_invalid_url ;;
    ret None
  else
    try_except (download_video_try url quality) download_video_except.

(** What [main] does once [download_video] has returned.  The script also
    computes [os.path.basename(filepath)], a pure function whose value it
    never uses. *)
Definition report (filepath : option string) : M unit :=
  match filepath with
  | Some filepath =>
      if String.eqb filepath EmptyString then print msg_failed
      else
        print msg_done ;;
        print (msg_saved (abspath filepath)) ;;
        size <- lift (getsize filepath) ;;
        print (msg_size (format_megabytes size))
  | None => print msg_failed
  end.

(** The body of the [try] in [main] from the quality check on. *)
Definition after_input (url quality : string) : M unit :=
  quality <-
    (if negb (Str.mem (Str.lower quality) SUPPORTED_QUALITIES) then
       print msg_invalid_quality ;;
       ret "highest"
     else ret quality) ;;
  print msg_processing ;;
  filepath <- download_video url (Str.lower quality) ;;
  report filepath.

(** The body of the [try] in [main]. *)
Definition main_try : M unit :=
  answers <- get_user_input ;;
  let '(url, quality) := answers in
  after_input url quality.

(** [except KeyboardInterrupt:] prints and calls [sys.exit(1)], which raises
    [SystemExit(1)]. *)
Definition main_except (e : exn) : option (M unit) :=
  if is_KeyboardInterrupt e then Some (print msg_cancelled ;; raise (SystemExit 1))
  else None.

Definition main : M unit :=
  setup_environment ;;
  display_banner ;;
  try_except main_try main_except.

(** Running the script: the exit status of the process and the world it
    leaves.  [main()] returning ends the script with status 0; [SystemExit(n)]
    ends it with status [n]; any other exception that leaves [main] is printed
    as a traceback by the interpreter, which exits with status 1 (130, killed
    by SIGINT, for a [KeyboardInterrupt]). *)
Definition run_script (w : world) : nat * world :=
  match main w with
  | (Return _, w') => (0, w')
  | (Raise (SystemExit code), w') => (code, w')
  | (Raise KeyboardInterrupt, w') => (130, w')
  | (Raise _, w') => (1, w')
  end.

End Script.

(** ** The retrieval collaborator as the specification describes it *)

Module Spec.

(** Modelled from the spec: the stream descriptor of the retrieval
    collaborator (pytube's [Stream] is not part of the repository): a handle
    with a resolution and an audio-only flag. *)
Record StreamDescriptor : Type := mkStream {
  handle : nat;
  resolution : nat;
  audio_only : bool
}.

(** Modelled from the spec: the quality of a [DownloadRequest] (the script
    itself passes the quality on as a string). *)
Inductive Quality : Type := Highest | Lowest | AudioOnly.

(** Modelled from the spec: a stream is video-capable when it is not flagged
    audio-only (pytube's stream classes are not part of the repository). *)
Definition video_capable (d : StreamDescriptor) : bool := negb (audio_only d).

(** Modelled from the spec: the scan behind "maximum (minimum) resolution,
    first match wins" (pytube's stream ordering is not part of the
    repository): the candidate is replaced only by a strictly better one. *)
Fixpoint pick (better : nat -> nat -> bool) (cur : StreamDescriptor)
    (rest : list StreamDescriptor) : StreamDescriptor :=
  match rest with
  | [] => cur
  | d :: rest' =>
      if better (resolution d) (resolution cur) then pick better d rest'
      else pick better cur rest'
  end.

(** Modelled from the spec: the scan started on a set of candidates, [None]
    when there is none (pytube's stream ordering is not part of the
    repository). *)
Definition pick_among (better : nat -> nat -> bool)
    (candidates : list StreamDescriptor) : option StreamDescriptor :=
  match candidates with
  | [] => None
  | d :: rest => Some (pick better d rest)
  end.

(** Modelled from the spec: the Quality Selector [selectStream] (pytube's
    [get_highest_resolution], [get_lowest_resolution], [filter] and [first]
    are not part of the repository). *)
Definition selectStream (streams : list StreamDescriptor) (quality : Quality)
  : option StreamDescriptor :=
  match quality with
  | Highest => pick_among (fun new cur => Nat.ltb cur new) (filter video_capable streams)
  | Lowest => pick_among (fun new cur => Nat.ltb new cur) (filter video_capable streams)
  | AudioOnly => List.find audio_only streams
  end.

(** Modelled from the spec: the collaborator interface [resolve(url)] and
    [fetch(descriptor, destinationDir)] behind the pytube calls of the script
    (pytube is not part of the repository).  [YouTube(url).streams] is
    [resolve]; the three selections are the Quality Selector; [download] is
    [fetch]. *)
Definition collaborator_of
    (resolve : string -> outcome (list StreamDescriptor))
    (fetch : StreamDescriptor -> string -> outcome string) : Pytube :=
  {| YT := list StreamDescriptor;
     StreamQuery := list StreamDescriptor;
     Stream := StreamDescriptor;
     YouTube := resolve;
     streams := fun yt => Return yt;
     get_highest_resolution := fun q => Return (selectStream q Highest);
     get_lowest_resolution := fun q => Return (selectStream q Lowest);
     filter_only_audio := fun q => Return (filter audio_only q);
     first := fun q => Return (hd_error q);
     download := fetch |}.

End Spec.

(** ** Sample surroundings, for running the definitions *)

Module Sample.

(** Library checks that accept every host; they are reached only for a
    network location with brackets or with characters outside ASCII. *)
Definition checks : Urllib.Checks :=
  {| Urllib.unicodedata_normalize_NFKC := fun s => s;
     Urllib._check_bracketed_host := fun _ => Return tt |}.

Definition os : OperatingSystem :=
  {| makedirs := fun _ => Return tt;
     abspath := fun p => "/home/user/" ++ p;
     getsize := fun _ => Return 1048576%N;
     format_megabytes := fun _ => "1.00" |}.

Definition streams : list Spec.StreamDescriptor :=
  [ Spec.mkStream 18 360 false;
    Spec.mkStream 140 0 true;
    Spec.mkStream 22 720 false;
    Spec.mkStream 43 360 false;
    Spec.mkStream 136 720 false;
    Spec.mkStream 251 0 true ].

Definition video_only_streams : list Spec.StreamDescriptor :=
  [ Spec.mkStream 18 360 false; Spec.mkStream 22 720 false ].

Definition file_of (d : Spec.StreamDescriptor) (dir : string) : outcome string :=
  Return (dir ++ "/" ++ (if Spec.audio_only d then "video.webm" else "video.mp4")).

(** A collaborator that resolves every URL to [streams]. *)
Definition pytube : Pytube :=
  Spec.collaborator_of (fun _ => Return streams) file_of.

(** A collaborator whose videos have no audio-only stream. *)
Definition pytube_video_only : Pytube :=
  Spec.collaborator_of (fun _ => Return video_only_streams) file_of.

(** A collaborator for which every video is unavailable. *)
Definition pytube_unavailable : Pytube :=
  Spec.collaborator_of (fun _ => Raise (PytubeError "Video unavailable")) file_of.


Definition typed (lines : list string) : world :=
  mkWorld (map Return lines) [] [].

Definition watch_url : string := "https://www.youtube.com/watch?v=dQw4w9WgXcQ".

End Sample.

(** ** Further sample surroundings *)

Module MoreSamples.

(** A system on which the output directory cannot be created. *)
Definition os_read_only : OperatingSystem :=
  {| makedirs := fun _ => Raise (OSError "Read-only file system");
     abspath := fun p => p;
     getsize := fun _ => Return 0%N;
     format_megabytes := fun _ => "0.00" |}.

(** A system on which the size of the downloaded file cannot be read. *)
Definition os_no_size : OperatingSystem :=
  {| makedirs := fun _ => Return tt;
     abspath := fun p => "/home/user/" ++ p;
     getsize := fun _ => Raise (OSError "No such file or directory");
     format_megabytes := fun _ => "0.00" |}.


(** A collaborator interrupted by the user while it resolves the URL. *)
Definition pytube_interrupted_early : Pytube :=
  Spec.collaborator_of (fun _ => Raise KeyboardInterrupt) Sample.file_of.

End MoreSamples.

(** ** Vocabulary of the statements *)

(** A character that [urlsplit] takes over into the network location as it
    stands: ASCII, none of the delimiters [/], [?] and [#], no bracket, and
    none of the tab, CR and LF that are deleted from a URL. *)
Definition authority_char (c : ascii) : bool :=
  Str.isascii_char c
  && negb (Str.has_char c "/?#[]")
  && negb (Ascii.eqb c Urllib.TAB || Ascii.eqb c Urllib.CR || Ascii.eqb c Urllib.LF).

Definition authority_text (s : string) : bool := Str.all authority_char s.

(** What may follow the network location in a URL: nothing, or a path, a
    query or a fragment. *)
Definition path_like (rest : string) : bool :=
  match rest with
  | EmptyString => true
  | String d _ => Str.has_char d "/?#"
  end.

(** The message [download_video] prints for an exception it catches. *)
Definition error_message (e : exn) : string :=
  if is_PytubeError e then msg_pytube_error e else msg_download_error e.

(** What [download_video] makes of the collaborator's answer to the fetch of
    the selected stream, [cs] being the pytube calls made on the way. *)
Definition fetched (answer : outcome string) (w : world) (cs : list call)
  : outcome (option string) * world :=
  match answer with
  | Return p => (Return (Some p), mkWorld (stdin w) (stdout w) (calls w ++ cs)%list)
  | Raise e =>
      if is_Exception e
      then (Return None,
            mkWorld (stdin w) (stdout w ++ [error_message e])%list (calls w ++ cs)%list)
      else (Raise e, mkWorld (stdin w) (stdout w) (calls w ++ cs)%list)
  end.

(** A descriptor with its resolution replaced. *)
Definition with_resolution (f : nat -> nat) (d : Spec.StreamDescriptor)
  : Spec.StreamDescriptor :=
  Spec.mkStream (Spec.handle d) (f (Spec.resolution d)) (Spec.audio_only d).

(** The quality [get_user_input] returns for the line typed at the second
    prompt: [input(...).strip() or SUPPORTED_QUALITIES[0]]. *)
Definition typed_quality (line : string) : string :=
  if String.eqb (Whitespace.strip line) EmptyString
  then hd EmptyString SUPPORTED_QUALITIES
  else Whitespace.strip line.

(** Whether [main] takes a quality as one of [SUPPORTED_QUALITIES]. *)
Definition recognized (quality : string) : bool :=
  Str.mem (Str.lower quality) SUPPORTED_QUALITIES.

(** The quality [main] hands to [download_video]. *)
Definition effective_quality (quality : string) : string :=
  if recognized quality then Str.lower quality else "highest".

(** The world in which [main] calls [download_video], when the script was
    started in [w], both prompts were answered, [rest] is what remains to be
    read and [quality] is the quality [get_user_input] returned. *)
Definition at_download (w : world) (rest : list (outcome string)) (quality : string)
  : world :=
  mkWorld rest
    (stdout w ++ [banner; msg_qualities; prompt_url; prompt_quality]
       ++ (if recognized quality then [] else [msg_invalid_quality])
       ++ [msg_processing])%list
    (calls w).

(** A world with more output. *)
Definition printed (w : world) (out : list string) : world :=
  mkWorld (stdin w) (stdout w ++ out)%list (calls w).

(** Whether the host of a parse result, as its [hostname] property gives it,
    contains one of the two texts. *)
Definition host_contains_youtube (r : Urllib.ParseResult) : bool :=
  match Urllib.hostname r with
  | Some h => Str.contains "youtube.com" h || Str.contains "youtu.be" h
  | None => false
  end.

(** The pytube calls of [download_video] for a quality when nothing fails,
    in the order of the source. *)
Definition call_plan (url quality : string) : list call :=
  CallYouTube url ::
  (if String.eqb quality "highest"
   then [CallStreams; CallGetHighestResolution; CallDownload VIDEOS_DIR]
   else if String.eqb quality "lowest"
   then [CallStreams; CallGetLowestResolution; CallDownload VIDEOS_DIR]
   else if String.eqb quality "audio"
   then [CallStreams; CallFilterOnlyAudio; CallFirst; CallDownload VIDEOS_DIR]
   else []).


(** The [port] property of a parse result, after [urllib.parse]: the port
    text of [_hostinfo] as a number, [ValueError] when it is not made of
    ASCII digits or is out of range. *)
Definition port (r : Urllib.ParseResult) : outcome (option N) :=
  match snd (Urllib._hostinfo r) with
  | None => Return None
  | Some text =>
      if Str.all Str.isdigit_ascii text
      then
        let value :=
          (fix int (s : string) (acc : N) : N :=
             match s with
             | EmptyString => acc
             | String c s' => int s' (10 * acc + (N_of_ascii c - 48))%N
             end) text 0%N in
        if N.leb value 65535 then Return (Some value)
        else Raise (ValueError "Port out of range 0-65535")
      else Raise (ValueError ("Port could not be cast to integer value as '" ++ text ++ "'"))
  end.

(** The exit status the interpreter gives for what [main] came to, as in
    [run_script]. *)
Definition script_status (r : outcome unit * world) : nat * world :=
  match r with
  | (Return _, w') => (0, w')
  | (Raise (SystemExit code), w') => (code, w')
  | (Raise KeyboardInterrupt, w') => (130, w')
  | (Raise _, w') => (1, w')
  end.

(** * Properties *)

(** ** Facts about the string operations *)

Module StrFacts.
Import Str.

Lemma append_empty_r (s : string) : s ++ EmptyString = s.
Proof. induction s as [|c s IH]; simpl; [reflexivity | now rewrite IH]. Qed.

Lemma append_assoc (a b c : string) : (a ++ b) ++ c = a ++ (b ++ c).
Proof. induction a as [|x a IH]; simpl; [reflexivity | now rewrite IH]. Qed.

Lemma length_append (a b : string) :
  String.length (a ++ b) = String.length a + String.length b.
Proof. induction a as [|x a IH]; simpl; [reflexivity | now rewrite IH]. Qed.

Lemma startswith_exact (p s : string) :
  startswith p s = true <-> exists t, s = p ++ t.
Proof.
  revert s; induction p as [|a p IH]; intros s; simpl.
  - split; [intros _; now exists s | reflexivity].
  - destruct s as [|b s].
    + split; [discriminate | intros [t H]; discriminate].
    + rewrite andb_true_iff, Ascii.eqb_eq, IH. split.
      * intros [-> [t ->]]. now exists t.
      * intros [t H]. injection H as -> ->. split; [reflexivity | now exists t].
Qed.

Lemma contains_exact (n s : string) :
  contains n s = true <-> exists a b, s = a ++ n ++ b.
Proof.
  induction s as [|c s IH].
  - simpl. rewrite orb_false_r, startswith_exact. split.
    + intros [t H]. exists EmptyString, t. exact H.
    + intros [a [b H]]. destruct a; [now exists b | discriminate].
  - cbn [contains]. rewrite orb_true_iff, startswith_exact, IH. split.
    + intros [[t H] | [a [b H]]].
      * exists EmptyString, t. exact H.
      * exists (String c a), b. simpl. now rewrite H.
    + intros [a [b H]]. destruct a as [|x a].
      * left. now exists b.
      * right. simpl in H. injection H as _ H. now exists a, b.
Qed.

Lemma contains_inside (n a b : string) : contains n (a ++ n ++ b) = true.
Proof. apply contains_exact. now exists a, b. Qed.

Lemma contains_length (n s : string) :
  contains n s = true -> String.length n <= String.length s.
Proof.
  intros H. apply contains_exact in H. destruct H as [a [b ->]].
  rewrite !length_append. lia.
Qed.

Lemma contains_same_length (n s : string) :
  contains n s = true -> String.length s = String.length n -> s = n.
Proof.
  intros H L. apply contains_exact in H. destruct H as [a [b ->]].
  rewrite !length_append in L.
  destruct a; [| simpl in L; lia].
  destruct b; [| simpl in L; lia].
  simpl. apply append_empty_r.
Qed.

Lemma lower_length (s : string) : String.length (lower s) = String.length s.
Proof. induction s as [|c s IH]; simpl; [reflexivity | now rewrite IH]. Qed.

Lemma lower_append (a b : string) : lower (a ++ b) = lower a ++ lower b.
Proof. induction a as [|x a IH]; simpl; [reflexivity | now rewrite IH]. Qed.

Lemma contains_lower (n s : string) :
  contains n s = true -> contains (lower n) (lower s) = true.
Proof.
  intros H. apply contains_exact in H. destruct H as [a [b ->]].
  rewrite !lower_append. apply contains_inside.
Qed.

Lemma take_length_append (a b : string) : take (String.length a) (a ++ b) = a.
Proof. induction a as [|x a IH]; simpl; [now destruct b | now rewrite IH]. Qed.

Lemma drop_length_append (a b : string) : drop (String.length a) (a ++ b) = b.
Proof. induction a as [|x a IH]; simpl; [now destruct b | exact IH]. Qed.

Lemma take_drop (i : nat) (s : string) : take i s ++ drop i s = s.
Proof.
  revert s; induction i as [|i IH]; intros [|c s]; simpl; try reflexivity.
  now rewrite IH.
Qed.

Lemma find_absent (c : ascii) (s : string) :
  has_char c s = false -> find c s = None.
Proof.
  induction s as [|d s IH]; simpl; [reflexivity |].
  intros H. apply orb_false_iff in H. destruct H as [H1 H2].
  rewrite H1, (IH H2). reflexivity.
Qed.

Lemma find_append_absent (c : ascii) (a b : string) :
  has_char c a = false ->
  find c (a ++ b) = option_map (Nat.add (String.length a)) (find c b).
Proof.
  induction a as [|d a IH]; simpl.
  - intros _. now destruct (find c b).
  - intros H. apply orb_false_iff in H. destruct H as [H1 H2].
    rewrite H1, (IH H2). now destruct (find c b).
Qed.

Lemma find_split (c : ascii) (s : string) (i : nat) :
  find c s = Some i -> s = take i s ++ String c (drop (S i) s).
Proof.
  revert i; induction s as [|d s IH]; simpl; intros i H; [discriminate |].
  destruct (Ascii.eqb c d) eqn:E.
  - injection H as <-. apply Ascii.eqb_eq in E. subst d. simpl. now destruct s.
  - destruct (find c s) as [j|] eqn:F; [| discriminate].
    injection H as <-. simpl. f_equal. now apply IH.
Qed.

Lemma rfind_split (c : ascii) (s : string) (i : nat) :
  rfind c s = Some i -> s = take i s ++ String c (drop (S i) s).
Proof.
  revert i; induction s as [|d s IH]; simpl; intros i H; [discriminate |].
  destruct (rfind c s) as [j|] eqn:F.
  - injection H as <-. simpl. f_equal. now apply IH.
  - destruct (Ascii.eqb c d) eqn:E; [| discriminate].
    injection H as <-. apply Ascii.eqb_eq in E. subst d. simpl. now destruct s.
Qed.

Lemma partition_found (c : ascii) (s x y : string) :
  partition c s = (x, true, y) -> s = x ++ String c y.
Proof.
  unfold partition. destruct (find c s) as [i|] eqn:F; [| discriminate].
  intros H. injection H as <- <-. now apply find_split.
Qed.

Lemma partition_absent (c : ascii) (s x y : string) :
  partition c s = (x, false, y) -> x = s.
Proof.
  unfold partition. destruct (find c s) as [i|]; [discriminate |].
  intros H. now injection H as <- _.
Qed.

Lemma rpartition_whole (c : ascii) (s x y : string) (found : bool) :
  rpartition c s = (x, found, y) -> exists a, s = a ++ y.
Proof.
  unfold rpartition. destruct (rfind c s) as [i|] eqn:F; intros H.
  - injection H as <- _ <-. apply rfind_split in F.
    exists (take i s ++ String c EmptyString).
    rewrite append_assoc. exact F.
  - injection H as _ _ <-. now exists EmptyString.
Qed.

Lemma remove_append (c : ascii) (a b : string) :
  remove c (a ++ b) = remove c a ++ remove c b.
Proof.
  induction a as [|d a IH]; simpl; [reflexivity |].
  destruct (Ascii.eqb c d); simpl; now rewrite IH.
Qed.

Lemma remove_absent (c : ascii) (s : string) :
  has_char c s = false -> remove c s = s.
Proof.
  induction s as [|d s IH]; simpl; [reflexivity |].
  intros H. apply orb_false_iff in H. destruct H as [H1 H2].
  rewrite H1, (IH H2). reflexivity.
Qed.

End StrFacts.

(** ** Facts about [urlsplit] and [urlparse] *)

Module UrllibFacts.
Import Str StrFacts Urllib.

Lemma all_has_char (p : ascii -> bool) (c : ascii) (s : string) :
  all p s = true -> p c = false -> has_char c s = false.
Proof.
  intros A P. induction s as [|d s IH]; simpl in *; [reflexivity |].
  apply andb_true_iff in A. destruct A as [A1 A2].
  rewrite (IH A2), orb_false_r.
  destruct (Ascii.eqb c d) eqn:E; [| reflexivity].
  apply Ascii.eqb_eq in E. subst d. congruence.
Qed.

Lemma authority_has_no (c : ascii) (s : string) :
  authority_text s = true -> authority_char c = false -> has_char c s = false.
Proof. apply all_has_char. Qed.

Lemma authority_isascii (s : string) :
  authority_text s = true -> isascii s = true.
Proof.
  unfold authority_text, isascii.
  induction s as [|d s IH]; simpl; [reflexivity |].
  intros A. apply andb_true_iff in A. destruct A as [A1 A2].
  rewrite (IH A2), andb_true_r.
  unfold authority_char in A1.
  apply andb_true_iff in A1. destruct A1 as [A1 _].
  apply andb_true_iff in A1. now destruct A1.
Qed.

Lemma path_like_cases (rest : string) :
  path_like rest = true ->
  rest = EmptyString \/
  exists r, rest = String "/" r \/ rest = String "?" r \/ rest = String "#" r.
Proof.
  destruct rest as [|d r]; [now left |]. simpl. intros H. right. exists r.
  rewrite orb_false_r in H.
  apply orb_true_iff in H. destruct H as [H | H].
  - apply Ascii.eqb_eq in H. subst d. now left.
  - apply orb_true_iff in H. destruct H as [H | H];
      apply Ascii.eqb_eq in H; subst d; auto.
Qed.

Lemma path_like_remove (c : ascii) (rest : string) :
  has_char c "/?#" = false -> path_like rest = true ->
  path_like (remove c rest) = true.
Proof.
  intros C H. destruct rest as [|d r]; [reflexivity |]. simpl in *.
  destruct (Ascii.eqb c d) eqn:E; [| exact H].
  apply Ascii.eqb_eq in E. subst d. congruence.
Qed.

Lemma splitnetloc_authority (host rest : string) :
  authority_text host = true -> path_like rest = true ->
  _splitnetloc (String "/" (String "/" (host ++ rest))) 2 = (host, rest).
Proof.
  intros A P.
  assert (F : forall c, has_char c "/?#" = true ->
                find_from c 2 (String "/" (String "/" (host ++ rest)))
                = option_map (fun i => 2 + String.length host + i) (find c rest)).
  { intros c C. unfold find_from. cbn [String.length Nat.ltb Nat.leb drop].
    rewrite find_append_absent.
    - destruct (find c rest); simpl; [f_equal; lia | reflexivity].
    - apply authority_has_no; [exact A |].
      unfold authority_char. simpl in C |- *. rewrite orb_false_r in C.
      rewrite !orb_false_r.
      destruct (Ascii.eqb c "/"), (Ascii.eqb c "?"), (Ascii.eqb c "#");
        simpl in *; try discriminate; now rewrite ?andb_false_r. }
  unfold _splitnetloc. cbn [fold_left].
  rewrite !F by reflexivity.
  assert (D : forall d, d = 2 + String.length host ->
            (take (d - 2) (drop 2 (String "/" (String "/" (host ++ rest)))),
             drop d (String "/" (String "/" (host ++ rest)))) = (host, rest)).
  { intros d ->. cbn [drop Nat.add].
    replace (S (S (String.length host)) - 2) with (String.length host) by lia.
    now rewrite take_length_append, drop_length_append. }
  apply D.
  cbn [String.length]. rewrite length_append.
  destruct (path_like_cases rest P) as [-> | [r [-> | [-> | ->]]]]; simpl;
    repeat match goal with
           | |- context [find ?c r] => destruct (find c r); simpl
           end; lia.
Qed.

Lemma hostinfo_within_netloc (r : ParseResult) :
  exists a b, netloc r = a ++ fst (_hostinfo r) ++ b.
Proof.
  unfold _hostinfo.
  destruct (rpartition "@" (netloc r)) as [[u f] hostinfo] eqn:R.
  apply rpartition_whole in R. destruct R as [a R]. rewrite R.
  destruct (partition "[" hostinfo) as [[before [|]] bracketed] eqn:B.
  - apply partition_found in B. subst hostinfo.
    destruct (partition "]" bracketed) as [[h [|]] port] eqn:H.
    + apply partition_found in H. subst bracketed.
      destruct (partition ":" port) as [[x y] z]. cbn [fst].
      exists (a ++ before ++ String "[" EmptyString), (String "]" port).
      now rewrite !append_assoc.
    + apply partition_absent in H. subst h.
      destruct (partition ":" port) as [[x y] z]. cbn [fst].
      exists (a ++ before ++ String "[" EmptyString), EmptyString.
      now rewrite !append_assoc, append_empty_r.
  - destruct (partition ":" hostinfo) as [[h [|]] port] eqn:H; cbn [fst].
    + apply partition_found in H. subst hostinfo.
      now exists a, (String ":" port).
    + apply partition_absent in H. subst h.
      exists a, EmptyString. now rewrite append_empty_r.
Qed.

Section WithChecks.
Context {checks : Checks}.

Lemma checknetloc_authority (host : string) :
  authority_text host = true -> _checknetloc host = Return tt.
Proof.
  intros A. unfold _checknetloc.
  now rewrite (authority_isascii host A), orb_true_r.
Qed.

Lemma remove_unsafe_authority (pre host rest : string) :
  has_char TAB pre = false -> has_char CR pre = false -> has_char LF pre = false ->
  authority_text host = true ->
  remove LF (remove CR (remove TAB (pre ++ host ++ rest)))
  = pre ++ host ++ remove LF (remove CR (remove TAB rest)).
Proof.
  intros T C L A.
  rewrite !remove_append.
  rewrite (remove_absent TAB pre T), (remove_absent CR pre C), (remove_absent LF pre L).
  rewrite (remove_absent TAB host), (remove_absent CR host), (remove_absent LF host);
    [reflexivity | | | ]; apply authority_has_no; auto.
Qed.

(** [urlsplit] on [pre ++ host ++ rest], where [pre] is the literal
    ["http://"] or ["https://"] and [sch] its scheme. *)
Ltac split_literal_prefix pre sch host rest rest' A P' Hb1 Hb2 :=
  change (sch ++ "://" ++ host ++ rest) with (pre ++ host ++ rest);
  replace (lstrip is_c0_control_or_space (pre ++ host ++ rest))
    with (pre ++ host ++ rest) by reflexivity;
  rewrite (remove_unsafe_authority pre host rest) by (reflexivity || exact A);
  fold rest';
  match goal with
  | |- context [match ?X with pair _ _ => _ end] =>
      replace X with (sch, String "/" (String "/" (host ++ rest'))) by reflexivity
  end;
  cbv beta iota;
  change (String.eqb (take 2 (String "/" (String "/" (host ++ rest')))) "//") with true;
  cbv beta iota;
  rewrite (splitnetloc_authority host rest' A P');
  rewrite Hb1, Hb2; cbn [andb orb negb obind];
  rewrite (checknetloc_authority host A);
  destruct (has_char "#" rest');
  repeat match goal with
         | |- context [partition ?c ?s] => destruct (partition c s) as [[? ?] ?]
         | |- context [if has_char ?c ?s then _ else _] => destruct (has_char c s)
         end;
  cbn [obind]; eauto.

Lemma urlsplit_authority (sch host rest : string) :
  sch = "http" \/ sch = "https" ->
  authority_text host = true -> path_like rest = true ->
  exists p q f,
    urlsplit (sch ++ "://" ++ host ++ rest) = Return (mkSplit sch host p q f).
Proof.
  intros S A P.
  set (rest' := remove LF (remove CR (remove TAB rest))).
  assert (P' : path_like rest' = true)
    by (unfold rest'; repeat apply path_like_remove; auto).
  assert (Hb1 : has_char "[" host = false) by (apply authority_has_no; auto).
  assert (Hb2 : has_char "]" host = false) by (apply authority_has_no; auto).
  unfold urlsplit.
  destruct S as [-> | ->].
  - split_literal_prefix "http://" "http" host rest rest' A P' Hb1 Hb2.
  - split_literal_prefix "https://" "https" host rest rest' A P' Hb1 Hb2.
Qed.

Lemma urlparse_authority (sch host rest : string) :
  sch = "http" \/ sch = "https" ->
  authority_text host = true -> path_like rest = true ->
  exists r,
    urlparse (sch ++ "://" ++ host ++ rest) = Return r
    /\ scheme r = sch /\ netloc r = host.
Proof.
  intros S A P.
  destruct (urlsplit_authority sch host rest S A P) as [p [q [f E]]].
  unfold urlparse. rewrite E. cbn [obind].
  destruct (mem sch uses_params && has_char ";" p).
  - destruct (_splitparams p) as [u ps]. eexists. split; [reflexivity | now split].
  - eexists. split; [reflexivity | now split].
Qed.

End WithChecks.

End UrllibFacts.

(** ** The URL validator *)

Section Validator.
Context {checks : Urllib.Checks}.
Import Str.

Lemma is_valid_url_parsed (url : string) (r : Urllib.ParseResult) :
  Urllib.urlparse url = Return r ->
  is_valid_url url =
  Return (mem (Urllib.scheme r) ["http"; "https"]
          && (contains "youtube.com" (Urllib.netloc r)
              || contains "youtu.be" (Urllib.netloc r))).
Proof.
  intros E. unfold is_valid_url, is_valid_url_try. rewrite E.
  cbn [obind forallb]. now rewrite andb_true_r.
Qed.

Lemma is_valid_url_unparsed (url : string) (e : exn) :
  Urllib.urlparse url = Raise e -> is_valid_url url = Return false.
Proof.
  intros E. unfold is_valid_url, is_valid_url_try. now rewrite E.
Qed.

Lemma mem_http_https (s : string) :
  mem s ["http"; "https"] = true <-> s = "http" \/ s = "https".
Proof.
  unfold mem. cbn [existsb]. rewrite orb_false_r, orb_true_iff, !String.eqb_eq.
  tauto.
Qed.

Lemma is_valid_url_no_raise (url : string) (e : exn) :
  is_valid_url url <> Raise e.
Proof.
  unfold is_valid_url. destruct (is_valid_url_try url); discriminate.
Qed.

(** C5 (amended).  [is_valid_url] returns a boolean for every string and
    raises for none; where [urlparse] rejects the string (it raises), the
    answer is [False]; a string that [urlparse] accepts, well-formed or not,
    is judged by its scheme and network location alone.  As a function of
    the string alone it has no access to the world, so it is pure and
    deterministic. *)
Theorem is_valid_url_total (url : string) :
  (exists b : bool, is_valid_url url = Return b)
  /\ (forall e, is_valid_url url <> Raise e)
  /\ (forall e, Urllib.urlparse url = Raise e -> is_valid_url url = Return false)
  /\ (forall r, Urllib.urlparse url = Return r ->
        is_valid_url url
        = Return (mem (Urllib.scheme r) ["http"; "https"]
                  && (contains "youtube.com" (Urllib.netloc r)
                      || contains "youtu.be" (Urllib.netloc r)))).
Proof.
  split; [| split; [| split]].
  - unfold is_valid_url. destruct (is_valid_url_try url) as [b | e]; eauto.
  - apply is_valid_url_no_raise.
  - apply is_valid_url_unparsed.
  - apply is_valid_url_parsed.
Qed.

(** C2 (amended).  [is_valid_url] answers [True] exactly for the strings that
    [urlparse] accepts with scheme [http] or [https] and whose network
    location, the whole text between [//] and the path with any user
    information and port, contains ["youtube.com"] or ["youtu.be"].  So it
    answers [False] for every other scheme and for every network location
    with neither text, and [True] for scheme [https] with the host
    ["youtube.com"]. *)
Theorem is_valid_url_iff_netloc (url : string) :
  (is_valid_url url = Return true <->
   exists r, Urllib.urlparse url = Return r
             /\ (Urllib.scheme r = "http" \/ Urllib.scheme r = "https")
             /\ (contains "youtube.com" (Urllib.netloc r) = true
                 \/ contains "youtu.be" (Urllib.netloc r) = true))
  /\ (forall r, Urllib.urlparse url = Return r ->
        Urllib.scheme r <> "http" -> Urllib.scheme r <> "https" ->
        is_valid_url url = Return false)
  /\ (forall r, Urllib.urlparse url = Return r ->
        contains "youtube.com" (Urllib.netloc r) = false ->
        contains "youtu.be" (Urllib.netloc r) = false ->
        is_valid_url url = Return false)
  /\ (forall r, Urllib.urlparse url = Return r ->
        Urllib.scheme r = "https" ->
        fst (Urllib._hostinfo r) = "youtube.com" ->
        is_valid_url url = Return true).
Proof.
  split; [| split; [| split]].
  - destruct (Urllib.urlparse url) as [r | e] eqn:E.
    + rewrite (is_valid_url_parsed url r E). split.
      * intros H. injection H as H. apply andb_true_iff in H.
        destruct H as [H1 H2]. exists r. split; [reflexivity |].
        split; [now apply mem_http_https | now apply orb_true_iff].
      * intros [r' [R [S N]]]. injection R as <-.
        apply mem_http_https in S. apply orb_true_iff in N.
        now rewrite S, N.
    + rewrite (is_valid_url_unparsed url e E). split; [discriminate |].
      intros [r [R _]]. discriminate.
  - intros r E S1 S2. rewrite (is_valid_url_parsed url r E).
    destruct (mem (Urllib.scheme r) ["http"; "https"]) eqn:M; [| reflexivity].
    apply mem_http_https in M. tauto.
  - intros r E N1 N2. rewrite (is_valid_url_parsed url r E), N1, N2.
    now rewrite andb_false_r.
  - intros r E S H. rewrite (is_valid_url_parsed url r E), S.
    destruct (UrllibFacts.hostinfo_within_netloc r) as [a [b N]].
    rewrite H in N. rewrite N, StrFacts.contains_inside. reflexivity.
Qed.

Lemma is_valid_url_authority (sch host rest : string) :
  sch = "http" \/ sch = "https" ->
  authority_text host = true ->
  path_like rest = true ->
  is_valid_url (sch ++ "://" ++ host ++ rest)
  = Return (contains "youtube.com" host || contains "youtu.be" host).
Proof.
  intros S A P.
  destruct (UrllibFacts.urlparse_authority sch host rest S A P) as [r [E [Hs Hn]]].
  rewrite (is_valid_url_parsed _ r E), Hs, Hn.
  apply mem_http_https in S. now rewrite S.
Qed.

Lemma case_variant_lacks_texts (host : string) :
  lower host = "youtube.com" \/ lower host = "youtu.be" ->
  host <> lower host ->
  contains "youtube.com" host || contains "youtu.be" host = false.
Proof.
  intros L D. apply orb_false_iff.
  pose proof (StrFacts.lower_length host) as Len.
  destruct L as [L | L]; rewrite L in D, Len; split.
  - destruct (contains "youtube.com" host) eqn:C; [| reflexivity].
    exfalso. apply D. apply StrFacts.contains_same_length; [exact C | now rewrite <- Len].
  - destruct (contains "youtu.be" host) eqn:C; [| reflexivity].
    apply StrFacts.contains_lower in C. rewrite L in C. discriminate C.
  - destruct (contains "youtube.com" host) eqn:C; [| reflexivity].
    apply StrFacts.contains_lower in C. rewrite L in C. discriminate C.
  - destruct (contains "youtu.be" host) eqn:C; [| reflexivity].
    exfalso. apply D. apply StrFacts.contains_same_length; [exact C | now rewrite <- Len].
Qed.

(** C9 (amended).  The test is a case-sensitive search in the network
    location, whose letter case [urlparse] keeps: a URL [http(s)://AUTHORITY]
    followed by nothing or by a path, query or fragment parses with AUTHORITY
    as its network location, letter for letter, and [is_valid_url] answers
    whether AUTHORITY contains lower-case ["youtube.com"] or ["youtu.be"].
    Hence every URL whose network location differs from one of the two by
    letter case alone is answered [False]. *)
Theorem is_valid_url_case_sensitive :
  (forall sch host rest,
     sch = "http" \/ sch = "https" ->
     authority_text host = true ->
     path_like rest = true ->
     (exists r, Urllib.urlparse (sch ++ "://" ++ host ++ rest) = Return r
                /\ Urllib.scheme r = sch /\ Urllib.netloc r = host)
     /\ is_valid_url (sch ++ "://" ++ host ++ rest)
        = Return (contains "youtube.com" host || contains "youtu.be" host))
  /\ (forall url r,
        Urllib.urlparse url = Return r ->
        lower (Urllib.netloc r) = "youtube.com" \/ lower (Urllib.netloc r) = "youtu.be" ->
        Urllib.netloc r <> lower (Urllib.netloc r) ->
        is_valid_url url = Return false).
Proof.
  split.
  - intros sch host rest S A P. split.
    + now apply UrllibFacts.urlparse_authority.
    + now apply is_valid_url_authority.
  - intros url r E L D.
    rewrite (is_valid_url_parsed url r E), (case_variant_lacks_texts _ L D).
    now rewrite andb_false_r.
Qed.

End Validator.

(** ** The downloader *)

Section Downloader.
Context {checks : Urllib.Checks} {pytube : Pytube}.

Lemma download_video_valid (url quality : string) (w : world) :
  is_valid_url url = Return true ->
  download_video url quality w
  = try_except (download_video_try url quality) download_video_except w.
Proof.
  intros V. unfold download_video, bind, lift. now rewrite V.
Qed.

Lemma error_message_carries_text (e : exn) :
  Str.contains (str_exn e) (error_message e) = true.
Proof.
  unfold error_message, msg_pytube_error, msg_download_error.
  destruct (is_PytubeError e).
  - rewrite <- StrFacts.append_assoc. apply StrFacts.contains_inside.
  - rewrite <- StrFacts.append_assoc. apply StrFacts.contains_inside.
Qed.

Lemma download_video_except_caught (e : exn) :
  is_Exception e = true ->
  download_video_except e = Some (print (error_message e) ;; ret None)%py.
Proof.
  intros H. unfold download_video_except, error_message.
  destruct (is_PytubeError e); [reflexivity | now rewrite H].
Qed.

(** C1.  For a URL that [is_valid_url] answers [False] for,
    [download_video] prints the invalid-URL message and returns [None]; the
    list of pytube calls is as it was, so the collaborator is not invoked. *)
Theorem download_video_rejects_invalid_url (url quality : string) (w : world) :
  is_valid_url url = Return false ->
  download_video url quality w
  = (Return None, mkWorld (stdin w) (stdout w ++ [msg_invalid_url])%list (calls w)).
Proof.
  intros V. unfold download_video, bind, lift. rewrite V. reflexivity.
Qed.

(** C10.  Called with a quality other than ["highest"], ["lowest"] and
    ["audio"] on a valid URL, [download_video] still calls [YouTube(url)] and
    nothing else of pytube; once that call has returned, no stream is selected
    and the result is the no-stream failure, [None], not the highest
    resolution. *)
Theorem download_video_unknown_quality (url quality : string) (w : world) (yt : YT) :
  is_valid_url url = Return true ->
  YouTube url = Return yt ->
  quality <> "highest" -> quality <> "lowest" -> quality <> "audio" ->
  download_video url quality w
  = (Return None,
     mkWorld (stdin w) (stdout w ++ [msg_no_stream])%list
             (calls w ++ [CallYouTube url])%list).
Proof.
  intros V Y Q1 Q2 Q3.
  rewrite (download_video_valid url quality w V).
  apply String.eqb_neq in Q1, Q2, Q3.
  unfold try_except, download_video_try, bind, collaborator.
  rewrite Y, Q1, Q2, Q3. reflexivity.
Qed.

(** C4.  No exception of class [Exception] leaves [download_video]: whatever
    the [try] block raises of that class, a [PytubeError] or any other, from
    resolving or from fetching, is caught; the function prints a message that
    carries the text of the exception and returns [None]. *)
Theorem download_video_catches_exceptions (url quality : string) (w : world) :
  (forall e w', download_video url quality w = (Raise e, w') -> is_Exception e = false)
  /\ (is_valid_url url = Return true ->
      forall e w1,
        download_video_try url quality w = (Raise e, w1) ->
        is_Exception e = true ->
        download_video url quality w
        = (Return None,
           mkWorld (stdin w1) (stdout w1 ++ [error_message e])%list (calls w1))
        /\ Str.contains (str_exn e) (error_message e) = true)
  /\ (is_valid_url url = Return true ->
      forall e,
        YouTube url = Raise e ->
        is_Exception e = true ->
        download_video url quality w
        = (Return None,
           mkWorld (stdin w) (stdout w ++ [error_message e])%list
                   (calls w ++ [CallYouTube url])%list))
  /\ (is_valid_url url = Return true ->
      forall yt q s e,
        quality = "highest" ->
        YouTube url = Return yt ->
        streams yt = Return q ->
        get_highest_resolution q = Return (Some s) ->
        download s VIDEOS_DIR = Raise e ->
        is_Exception e = true ->
        download_video url quality w
        = (Return None,
           mkWorld (stdin w) (stdout w ++ [error_message e])%list
                   (calls w ++ [CallYouTube url; CallStreams;
                                CallGetHighestResolution;
                                CallDownload VIDEOS_DIR])%list)).
Proof.
  assert (Caught : is_valid_url url = Return true ->
      forall e w1,
        download_video_try url quality w = (Raise e, w1) ->
        is_Exception e = true ->
        download_video url quality w
        = (Return None,
           mkWorld (stdin w1) (stdout w1 ++ [error_message e])%list (calls w1))).
  { intros V e w1 T X. rewrite (download_video_valid url quality w V).
    unfold try_except. rewrite T, (download_video_except_caught e X). reflexivity. }
  split; [| split; [| split]].
  - intros e w'. unfold download_video, bind, lift.
    destruct (is_valid_url url) as [[|] | e0] eqn:V; cbn [negb].
    + unfold try_except.
      destruct (download_video_try url quality w) as [[p | e1] w1]; [discriminate |].
      destruct (is_Exception e1) eqn:X.
      * rewrite (download_video_except_caught e1 X). discriminate.
      * unfold download_video_except. rewrite X.
        destruct (is_PytubeError e1) eqn:Y; [now destruct e1 |].
        intros H. injection H as <- _. exact X.
    + discriminate.
    + now destruct (is_valid_url_no_raise url e0).
  - intros V e w1 T X. split; [now apply Caught | apply error_message_carries_text].
  - intros V e Y X.
    rewrite (Caught V e (mkWorld (stdin w) (stdout w) (calls w ++ [CallYouTube url])%list));
      [reflexivity | | exact X].
    unfold download_video_try, bind, collaborator. now rewrite Y.
  - intros V yt q s e -> Y S G D X.
    rewrite (Caught V e
               (mkWorld (stdin w) (stdout w)
                  (calls w ++ [CallYouTube url; CallStreams;
                               CallGetHighestResolution;
                               CallDownload VIDEOS_DIR])%list));
      [reflexivity | | exact X].
    unfold download_video_try, bind, collaborator. rewrite String.eqb_refl.
    rewrite Y. cbn [stdin stdout calls]. rewrite S. cbn [stdin stdout calls].
    rewrite G. cbn [stdin stdout calls]. rewrite D.
    now rewrite <- !app_assoc.
Qed.

(** Whatever implements the pytube calls: when the audio-only query has no
    first stream, [download_video] reports that no stream is available and
    returns [None]. *)
Lemma download_video_no_audio_stream (url : string) (w : world)
    (yt : YT) (q q' : StreamQuery) :
  is_valid_url url = Return true ->
  YouTube url = Return yt ->
  streams yt = Return q ->
  filter_only_audio q = Return q' ->
  first q' = Return None ->
  download_video url "audio" w
  = (Return None,
     mkWorld (stdin w) (stdout w ++ [msg_no_stream])%list
       (calls w ++ [CallYouTube url; CallStreams; CallFilterOnlyAudio; CallFirst])%list).
Proof.
  intros V Y S F N.
  rewrite (download_video_valid url _ w V).
  unfold try_except, download_video_try, bind, collaborator, print.
  replace (String.eqb "audio" "highest") with false by reflexivity.
  replace (String.eqb "audio" "lowest") with false by reflexivity.
  rewrite String.eqb_refl.
  rewrite Y. cbn [stdin stdout calls]. rewrite S. cbn [stdin stdout calls].
  rewrite F. cbn [stdin stdout calls]. rewrite N. cbn [stdin stdout calls].
  now rewrite <- !app_assoc.
Qed.

End Downloader.

(** ** The Quality Selector of the specification *)

Module SpecFacts.
Import Spec.

Lemma hd_error_filter (p : StreamDescriptor -> bool) (l : list StreamDescriptor) :
  hd_error (filter p l) = List.find p l.
Proof.
  induction l as [|d l IH]; simpl; [reflexivity |].
  destruct (p d); [reflexivity | exact IH].
Qed.

Lemma find_first (p : StreamDescriptor -> bool) (l : list StreamDescriptor)
    (s : StreamDescriptor) :
  List.find p l = Some s ->
  exists before after,
    l = (before ++ s :: after)%list /\ p s = true
    /\ forall d, In d before -> p d = false.
Proof.
  induction l as [|d l IH]; simpl; [discriminate |].
  destruct (p d) eqn:E.
  - intros H. injection H as <-. exists [], l. repeat split; auto.
    intros x [].
  - intros H. destruct (IH H) as [before [after [-> [Ps B]]]].
    exists (d :: before), after. repeat split; auto.
    intros x [<- | I]; auto.
Qed.

Lemma find_nowhere (p : StreamDescriptor -> bool) (l : list StreamDescriptor) :
  (forall d, In d l -> p d = false) -> List.find p l = None.
Proof.
  induction l as [|d l IH]; simpl; [reflexivity |].
  intros H. rewrite (H d) by now left. apply IH. intros x I. apply H. now right.
Qed.

Lemma filter_split (p : StreamDescriptor -> bool) (l a b : list StreamDescriptor)
    (s : StreamDescriptor) :
  filter p l = (a ++ s :: b)%list ->
  exists before after,
    l = (before ++ s :: after)%list /\ filter p before = a /\ filter p after = b.
Proof.
  revert a; induction l as [|d l IH]; intros a; simpl.
  - destruct a; discriminate.
  - destruct (p d) eqn:E.
    + destruct a as [|x a]; simpl; intros H; injection H as -> H.
      * exists [], l. simpl. auto.
      * destruct (IH a H) as [before [after [-> [F1 F2]]]].
        exists (x :: before), after. simpl. rewrite E, F1. auto.
    + intros H. destruct (IH a H) as [before [after [-> [F1 F2]]]].
      exists (d :: before), after. simpl. rewrite E. auto.
Qed.

(** The scan keeps the first of the best candidates, for any strict order
    [worse] that [better] decides. *)
Section Pick.
Variable better : nat -> nat -> bool.
Variable worse : nat -> nat -> Prop.
Hypothesis better_decides : forall new cur, better new cur = true <-> worse cur new.
Hypothesis worse_trans : forall a b c, worse a b -> worse b c -> worse a c.
Hypothesis not_worse : forall a b c, ~ worse b a -> worse b c -> worse a c.

Lemma pick_first_best (cur : StreamDescriptor) (rest : list StreamDescriptor) :
  exists before after,
    (cur :: rest = before ++ pick better cur rest :: after)%list
    /\ (forall d, In d before -> worse (resolution d) (resolution (pick better cur rest)))
    /\ (forall d, In d after -> ~ worse (resolution (pick better cur rest)) (resolution d)).
Proof.
  revert cur; induction rest as [|d rest IH]; intros cur; simpl.
  - exists [], []. split; [reflexivity | split; intros x []].
  - destruct (better (resolution d) (resolution cur)) eqn:B.
    + apply better_decides in B.
      destruct (IH d) as [before [after [E [Hb Ha]]]].
      exists (cur :: before), after. rewrite E.
      split; [reflexivity | split; [| exact Ha]].
      intros x [<- | I]; [| now apply Hb].
      destruct before as [|y before]; simpl in E; injection E as E1 E2.
      * now rewrite <- E1.
      * eapply worse_trans; [exact B |]. subst y. apply Hb. now left.
    + assert (N : ~ worse (resolution cur) (resolution d)).
      { intros W. apply better_decides in W. congruence. }
      destruct (IH cur) as [before [after [E [Hb Ha]]]].
      destruct before as [|y before]; simpl in E; injection E as E1 E2.
      * subst after. rewrite <- E1 in Ha |- *.
        exists [], (d :: rest). split; [reflexivity | split].
        -- intros x [].
        -- intros x [<- | I]; [exact N | now apply Ha].
      * subst y. exists (cur :: d :: before), after.
        split; [simpl; do 2 f_equal; exact E2 | split; [| exact Ha]].
        intros x [<- | [<- | I]].
        -- apply Hb. now left.
        -- eapply not_worse; [exact N |]. apply Hb. now left.
        -- apply Hb. now right.
Qed.

End Pick.

Lemma selected_first_best (better : nat -> nat -> bool) (worse : nat -> nat -> Prop)
    (streams : list StreamDescriptor) (s : StreamDescriptor) :
  (forall new cur, better new cur = true <-> worse cur new) ->
  (forall a b c, worse a b -> worse b c -> worse a c) ->
  (forall a b c, ~ worse b a -> worse b c -> worse a c) ->
  pick_among better (filter video_capable streams) = Some s ->
  exists before after,
    streams = (before ++ s :: after)%list
    /\ video_capable s = true
    /\ (forall d, In d before -> video_capable d = true ->
                  worse (resolution d) (resolution s))
    /\ (forall d, In d after -> video_capable d = true ->
                  ~ worse (resolution s) (resolution d)).
Proof.
  intros D T N. unfold pick_among.
  destruct (filter video_capable streams) as [|cur rest] eqn:F; [discriminate |].
  intros H. injection H as H.
  destruct (pick_first_best better worse D T N cur rest) as [a [b [E [Ha Hb]]]].
  rewrite H in E, Ha, Hb. rewrite E in F.
  destruct (filter_split _ _ _ _ _ F) as [before [after [-> [F1 F2]]]].
  exists before, after. repeat split.
  - assert (I : In s (filter video_capable (before ++ s :: after))).
    { rewrite F. apply in_or_app. right. now left. }
    apply filter_In in I. now destruct I.
  - intros d I V. apply Ha. rewrite <- F1. apply filter_In. auto.
  - intros d I V. apply Hb. rewrite <- F2. apply filter_In. auto.
Qed.

Lemma nothing_selected (better : nat -> nat -> bool) (streams : list StreamDescriptor) :
  pick_among better (filter video_capable streams) = None <->
  forall d, In d streams -> video_capable d = false.
Proof.
  unfold pick_among. split.
  - destruct (filter video_capable streams) as [|c r] eqn:F; [| discriminate].
    intros _ d I. destruct (video_capable d) eqn:V; [| reflexivity].
    assert (X : In d (filter video_capable streams)) by (apply filter_In; auto).
    rewrite F in X. destruct X.
  - intros H. destruct (filter video_capable streams) as [|c r] eqn:F; [reflexivity |].
    assert (X : In c (filter video_capable streams)) by (rewrite F; now left).
    apply filter_In in X. destruct X as [I V]. rewrite (H c I) in V. discriminate.
Qed.

End SpecFacts.

(** ** The downloader over the collaborator of the specification *)

Section SpecCollaborator.
Context {checks : Urllib.Checks}.
Variable resolve : string -> outcome (list Spec.StreamDescriptor).
Variable fetch : Spec.StreamDescriptor -> string -> outcome string.
Import Spec.

Lemma try_caught (body : M (option string)) (w w1 : world) (e : exn) :
  body w = (Raise e, w1) ->
  try_except body download_video_except w
  = if is_Exception e
    then (Return None,
          mkWorld (stdin w1) (stdout w1 ++ [error_message e])%list (calls w1))
    else (Raise e, w1).
Proof.
  intros B. unfold try_except. rewrite B.
  destruct (is_Exception e) eqn:X.
  - now rewrite (download_video_except_caught e X).
  - unfold download_video_except. rewrite X. now destruct e.
Qed.

(** Runs the [try] block of [download_video] over the collaborator of the
    specification: [R] is the answer of [resolve], [S] the selection. *)
Ltac run_try R S :=
  unfold download_video_try, bind, collaborator, print;
  cbn -[selectStream hd_error filter app];
  rewrite R; cbn -[selectStream hd_error filter app];
  rewrite S; cbn -[selectStream hd_error filter app].

Ltac run_download V R S s cs :=
  rewrite (download_video_valid (pytube := collaborator_of resolve fetch) _ _ _ V);
  match goal with
  | |- _ = fetched ?answer ?w _ =>
      unfold fetched;
      let F := fresh "F" in
      destruct answer as [p | e] eqn:F;
      [ unfold try_except; run_try R S; rewrite F; now rewrite <- !app_assoc
      | rewrite (try_caught _ w (mkWorld (stdin w) (stdout w) (calls w ++ cs)%list) e);
        [ reflexivity | run_try R S; rewrite F; now rewrite <- !app_assoc ] ]
  | |- _ = (Return None, _) =>
      unfold try_except; run_try R S; now rewrite <- !app_assoc
  end.

Lemma spec_download_highest (url : string) (w : world)
    (streams : list StreamDescriptor) :
  is_valid_url url = Return true ->
  resolve url = Return streams ->
  download_video (pytube := collaborator_of resolve fetch) url "highest" w =
  match selectStream streams Highest with
  | Some s =>
      fetched (fetch s VIDEOS_DIR) w
        [CallYouTube url; CallStreams; CallGetHighestResolution; CallDownload VIDEOS_DIR]
  | None =>
      (Return None,
       mkWorld (stdin w) (stdout w ++ [msg_no_stream])%list
         (calls w ++ [CallYouTube url; CallStreams; CallGetHighestResolution])%list)
  end.
Proof.
  intros V R.
  destruct (selectStream streams Highest) as [s|] eqn:S.
  - run_download V R S s
      [CallYouTube url; CallStreams; CallGetHighestResolution; CallDownload VIDEOS_DIR].
  - run_download V R S tt (@nil call).
Qed.

Lemma spec_download_lowest (url : string) (w : world)
    (streams : list StreamDescriptor) :
  is_valid_url url = Return true ->
  resolve url = Return streams ->
  download_video (pytube := collaborator_of resolve fetch) url "lowest" w =
  match selectStream streams Lowest with
  | Some s =>
      fetched (fetch s VIDEOS_DIR) w
        [CallYouTube url; CallStreams; CallGetLowestResolution; CallDownload VIDEOS_DIR]
  | None =>
      (Return None,
       mkWorld (stdin w) (stdout w ++ [msg_no_stream])%list
         (calls w ++ [CallYouTube url; CallStreams; CallGetLowestResolution])%list)
  end.
Proof.
  intros V R.
  destruct (selectStream streams Lowest) as [s|] eqn:S.
  - run_download V R S s
      [CallYouTube url; CallStreams; CallGetLowestResolution; CallDownload VIDEOS_DIR].
  - run_download V R S tt (@nil call).
Qed.

Lemma spec_download_audio (url : string) (w : world)
    (streams : list StreamDescriptor) :
  is_valid_url url = Return true ->
  resolve url = Return streams ->
  download_video (pytube := collaborator_of resolve fetch) url "audio" w =
  match selectStream streams AudioOnly with
  | Some s =>
      fetched (fetch s VIDEOS_DIR) w
        [CallYouTube url; CallStreams; CallFilterOnlyAudio; CallFirst;
         CallDownload VIDEOS_DIR]
  | None =>
      (Return None,
       mkWorld (stdin w) (stdout w ++ [msg_no_stream])%list
         (calls w ++ [CallYouTube url; CallStreams; CallFilterOnlyAudio; CallFirst])%list)
  end.
Proof.
  intros V R.
  assert (H : hd_error (filter audio_only streams) = selectStream streams AudioOnly)
    by apply SpecFacts.hd_error_filter.
  destruct (selectStream streams AudioOnly) as [s|] eqn:S.
  - run_download V R H s
      [CallYouTube url; CallStreams; CallFilterOnlyAudio; CallFirst;
       CallDownload VIDEOS_DIR].
  - run_download V R H tt (@nil call).
Qed.

End SpecCollaborator.

Section SpecSelection.
Context {checks : Urllib.Checks}.
Variable resolve : string -> outcome (list Spec.StreamDescriptor).
Variable fetch : Spec.StreamDescriptor -> string -> outcome string.
Import Spec.

(** C6.  Over the collaborator of the specification, with quality ["audio"]
    the stream fetched is the first one flagged audio-only in the order the
    collaborator gave, whatever the resolutions are; when no stream is
    flagged audio-only the selection is [None] and [download_video] prints
    the no-stream message and returns [None] without raising. *)
Theorem audio_only_selection (url : string) (w : world)
    (streams : list StreamDescriptor) :
  is_valid_url url = Return true ->
  resolve url = Return streams ->
  (forall s, selectStream streams AudioOnly = Some s ->
     (exists before after,
        streams = (before ++ s :: after)%list /\ audio_only s = true
        /\ forall d, In d before -> audio_only d = false)
     /\ download_video (pytube := collaborator_of resolve fetch) url "audio" w
        = fetched (fetch s VIDEOS_DIR) w
            [CallYouTube url; CallStreams; CallFilterOnlyAudio; CallFirst;
             CallDownload VIDEOS_DIR])
  /\ (forall f : nat -> nat,
        selectStream (map (with_resolution f) streams) AudioOnly
        = option_map (with_resolution f) (selectStream streams AudioOnly))
  /\ ((forall d, In d streams -> audio_only d = false) ->
      selectStream streams AudioOnly = None
      /\ download_video (pytube := collaborator_of resolve fetch) url "audio" w
         = (Return None,
            mkWorld (stdin w) (stdout w ++ [msg_no_stream])%list
              (calls w ++ [CallYouTube url; CallStreams; CallFilterOnlyAudio;
                           CallFirst])%list)).
Proof.
  intros V R.
  pose proof (spec_download_audio resolve fetch url w streams V R) as D.
  split; [| split].
  - intros s S. split; [now apply SpecFacts.find_first |].
    now rewrite S in D.
  - intros f. simpl. clear R D.
    induction streams as [|d l IH]; simpl; [reflexivity |].
    destruct (audio_only d); [reflexivity | exact IH].
  - intros N. assert (S : selectStream streams AudioOnly = None)
      by now apply SpecFacts.find_nowhere.
    split; [exact S | now rewrite S in D].
Qed.

(** C7.  Over the collaborator of the specification, with quality
    ["highest"] the stream fetched is a video-capable stream of the set whose
    resolution no video-capable stream of the set exceeds, the first such in
    the collaborator's order; with ["lowest"], symmetrically, the first of
    those with the least resolution.  A stream is selected as soon as the set
    has a video-capable one. *)
Theorem highest_and_lowest_selection (url : string) (w : world)
    (streams : list StreamDescriptor) :
  is_valid_url url = Return true ->
  resolve url = Return streams ->
  (forall s, selectStream streams Highest = Some s ->
     (exists before after,
        streams = (before ++ s :: after)%list /\ video_capable s = true
        /\ (forall d, In d before -> video_capable d = true ->
                      resolution d < resolution s)
        /\ (forall d, In d after -> video_capable d = true ->
                      resolution d <= resolution s))
     /\ download_video (pytube := collaborator_of resolve fetch) url "highest" w
        = fetched (fetch s VIDEOS_DIR) w
            [CallYouTube url; CallStreams; CallGetHighestResolution;
             CallDownload VIDEOS_DIR])
  /\ (forall s, selectStream streams Lowest = Some s ->
     (exists before after,
        streams = (before ++ s :: after)%list /\ video_capable s = true
        /\ (forall d, In d before -> video_capable d = true ->
                      resolution s < resolution d)
        /\ (forall d, In d after -> video_capable d = true ->
                      resolution s <= resolution d))
     /\ download_video (pytube := collaborator_of resolve fetch) url "lowest" w
        = fetched (fetch s VIDEOS_DIR) w
            [CallYouTube url; CallStreams; CallGetLowestResolution;
             CallDownload VIDEOS_DIR])
  /\ ((exists d, In d streams /\ video_capable d = true) ->
      (exists s, selectStream streams Highest = Some s)
      /\ (exists s, selectStream streams Lowest = Some s)).
Proof.
  intros V R.
  pose proof (spec_download_highest resolve fetch url w streams V R) as DH.
  pose proof (spec_download_lowest resolve fetch url w streams V R) as DL.
  split; [| split].
  - intros s S. rewrite S in DH. split; [| exact DH].
    destruct (SpecFacts.selected_first_best
                (fun new cur => Nat.ltb cur new) (fun a b => a < b) streams s)
      as [before [after [E [Vs [B A]]]]]; try exact S.
    + intros new cur. apply Nat.ltb_lt.
    + intros a b c. lia.
    + intros a b c. lia.
    + exists before, after. repeat split; auto.
      intros d I Vd. specialize (A d I Vd). lia.
  - intros s S. rewrite S in DL. split; [| exact DL].
    destruct (SpecFacts.selected_first_best
                (fun new cur => Nat.ltb new cur) (fun a b => b < a) streams s)
      as [before [after [E [Vs [B A]]]]]; try exact S.
    + intros new cur. apply Nat.ltb_lt.
    + intros a b c. lia.
    + intros a b c. lia.
    + exists before, after. repeat split; auto.
      intros d I Vd. specialize (A d I Vd). lia.
  - intros [d [I Vd]]. split.
    + destruct (selectStream streams Highest) as [s|] eqn:S; [now exists s |].
      pose proof (proj1 (SpecFacts.nothing_selected _ streams) S) as N.
      rewrite (N d I) in Vd. discriminate.
    + destruct (selectStream streams Lowest) as [s|] eqn:S; [now exists s |].
      pose proof (proj1 (SpecFacts.nothing_selected _ streams) S) as N.
      rewrite (N d I) in Vd. discriminate.
Qed.

End SpecSelection.

(** ** The shell *)

Section Shell.
Context {checks : Urllib.Checks} {pytube : Pytube} {os : OperatingSystem}.

Lemma get_user_input_answered (w : world) (u ql : string) (rest : list (outcome string)) :
  stdin w = Return u :: Return ql :: rest ->
  get_user_input w
  = (Return (Whitespace.strip u, typed_quality ql),
     mkWorld rest (stdout w ++ [msg_qualities; prompt_url; prompt_quality])%list (calls w)).
Proof.
  intros I. unfold get_user_input, bind, print, input, ret; cbn [stdin stdout calls].
  rewrite I. cbn [stdin stdout calls]. unfold typed_quality.
  now rewrite <- !app_assoc.
Qed.

Lemma after_input_download (url quality : string) (w : world) :
  after_input url quality w
  = (filepath <- download_video url (effective_quality quality) ;; report filepath)%py
      (printed w ((if recognized quality then [] else [msg_invalid_quality])
                  ++ [msg_processing])).
Proof.
  unfold after_input, effective_quality, recognized, printed.
  destruct (Str.mem (Str.lower quality) SUPPORTED_QUALITIES) eqn:R;
    unfold bind, print, ret; cbn [negb stdin stdout calls app].
  - reflexivity.
  - now rewrite <- !app_assoc.
Qed.

Lemma main_try_download (w : world) (u ql : string) (rest : list (outcome string)) :
  stdin w = Return u :: Return ql :: rest ->
  main_try (printed w [banner])
  = (filepath <- download_video (Whitespace.strip u)
                   (effective_quality (typed_quality ql)) ;;
     report filepath)%py (at_download w rest (typed_quality ql)).
Proof.
  intros I. unfold main_try, bind at 1.
  rewrite (get_user_input_answered (printed w [banner]) u ql rest) by exact I.
  rewrite after_input_download. unfold printed, at_download; cbn [stdin stdout calls].
  now rewrite <- !app_assoc.
Qed.

Lemma main_started (w : world) :
  makedirs VIDEOS_DIR = Return tt ->
  main w = try_except main_try main_except (printed w [banner]).
Proof.
  intros D. unfold main, setup_environment, display_banner, bind, lift, print.
  now rewrite D.
Qed.

Lemma run_completed (w w1 : world) :
  makedirs VIDEOS_DIR = Return tt ->
  main_try (printed w [banner]) = (Return tt, w1) ->
  run_script w = (0, w1).
Proof.
  intros D T. unfold run_script. rewrite (main_started w D).
  unfold try_except. now rewrite T.
Qed.

Lemma run_interrupted (w w1 : world) :
  makedirs VIDEOS_DIR = Return tt ->
  main_try (printed w [banner]) = (Raise KeyboardInterrupt, w1) ->
  run_script w = (1, printed w1 [msg_cancelled]).
Proof.
  intros D T. unfold run_script. rewrite (main_started w D).
  unfold try_except. now rewrite T.
Qed.

Lemma try_except_alike {A : Type} (body body' : M A) (handler : exn -> option (M A))
    (w w' : world) :
  body w = body' w' ->
  try_except body handler w = try_except body' handler w'.
Proof. intros E. unfold try_except. now rewrite E. Qed.

Lemma run_script_status (w : world) : run_script w = script_status (main w).
Proof. reflexivity. Qed.

(** C3.  Whatever is typed as quality, the script goes on to
    [download_video]: when the token, lower-cased, is none of ["highest"],
    ["lowest"] and ["audio"], [main] prints the warning and then does what it
    does for ["highest"]; a token that differs from ["highest"] by letter
    case only, such as ["HIGHEST"], is taken as ["highest"], without warning,
    and the script runs as if ["highest"] had been typed. *)
Theorem unrecognized_quality_falls_back (w : world) (u ql : string)
    (rest : list (outcome string)) :
  makedirs VIDEOS_DIR = Return tt ->
  stdin w = Return u :: Return ql :: rest ->
  let url := Whitespace.strip u in
  let quality := typed_quality ql in
  let w1 :=
    mkWorld rest
      (stdout w ++ [banner; msg_qualities; prompt_url; prompt_quality])%list (calls w) in
  let proceed :=
    (print msg_processing ;;
     filepath <- download_video url "highest" ;;
     report filepath)%py in
  (Str.mem (Str.lower quality) SUPPORTED_QUALITIES = false ->
   main w = try_except (print msg_invalid_quality ;; proceed)%py main_except w1
   /\ run_script w
      = script_status
          (try_except (print msg_invalid_quality ;; proceed)%py main_except w1))
  /\ (Str.lower quality = "highest" ->
      main w = try_except proceed main_except w1
      /\ run_script w = script_status (try_except proceed main_except w1)
      /\ run_script w
         = run_script
             (mkWorld (Return u :: Return "highest" :: rest) (stdout w) (calls w))).
Proof.
  intros D I url quality w1 proceed.
  assert (G : forall w0 line,
             stdin w0 = Return u :: Return line :: rest ->
             stdout w0 = stdout w -> calls w0 = calls w ->
             main_try (printed w0 [banner]) = after_input url (typed_quality line) w1).
  { intros w0 line I0 O C. unfold main_try, bind at 1.
    rewrite (get_user_input_answered (printed w0 [banner]) u line rest) by exact I0.
    unfold printed, w1; cbn [stdin stdout calls]. rewrite O, C.
    now rewrite <- !app_assoc. }
  assert (H : forall w0 line,
             stdin w0 = Return u :: Return line :: rest ->
             stdout w0 = stdout w -> calls w0 = calls w ->
             Str.lower (typed_quality line) = "highest" ->
             main w0 = try_except proceed main_except w1).
  { intros w0 line I0 O C L. rewrite (main_started w0 D).
    apply try_except_alike. rewrite (G w0 line I0 O C).
    unfold after_input, bind at 1. rewrite L.
    replace (negb (Str.mem "highest" SUPPORTED_QUALITIES)) with false by reflexivity.
    unfold ret. cbv beta iota. rewrite L. reflexivity. }
  split.
  - intros R.
    assert (E : main w
                = try_except (print msg_invalid_quality ;; proceed)%py main_except w1).
    { rewrite (main_started w D). apply try_except_alike.
      rewrite (G w ql I eq_refl eq_refl). fold quality.
      unfold after_input. rewrite R. reflexivity. }
    split; [exact E | now rewrite run_script_status, E].
  - intros L.
    pose proof (H w ql I eq_refl eq_refl L) as E.
    split; [exact E | split; [now rewrite run_script_status, E |]].
    rewrite !run_script_status, E.
    now rewrite (H (mkWorld (Return u :: Return "highest" :: rest) (stdout w) (calls w))
                   "highest" eq_refl eq_refl eq_refl eq_refl).
Qed.


End Shell.

(** ** The statements at work on sample inputs *)

Module Runs.
Import Sample.

#[local] Existing Instance Sample.checks.
#[local] Existing Instance Sample.os.

(** The two URLs below are ASCII and have no bracket, so that no library
    check is consulted: [is_valid_url] accepts them whatever [Urllib.Checks]
    is. *)
Lemma userinfo_accepted (c : Urllib.Checks) :
  is_valid_url (checks := c) "https://youtube.com@evil.example/" = Return true
  /\ is_valid_url (checks := c) "https://youtu.be@YOUTUBE.COM/" = Return true.
Proof.
  split.
  - apply (is_valid_url_authority "https" "youtube.com@evil.example" "/");
      [now right | reflexivity | reflexivity].
  - apply (is_valid_url_authority "https" "youtu.be@YOUTUBE.COM" "/");
      [now right | reflexivity | reflexivity].
Qed.

(** C1, at ["not-a-url"]. *)
Lemma download_video_rejects_invalid_url_witness :
  is_valid_url "not-a-url" = Return false
  /\ download_video (pytube := Sample.pytube) "not-a-url" "highest" (typed [])
     = (Return None, mkWorld [] [msg_invalid_url] []).
Proof.
  split; [reflexivity |].
  apply (download_video_rejects_invalid_url (pytube := Sample.pytube)
           "not-a-url" "highest" (typed [])).
  reflexivity.
Defined.

(** C2: the host of [https://youtube.com@evil.example/] is [evil.example],
    which contains neither text, and [is_valid_url] answers [True]; so the
    answer is not decided by the host. *)
Lemma host_reading_counterexample :
  Urllib.urlparse "https://youtube.com@evil.example/"
  = Return (Urllib.mkParse "https" "youtube.com@evil.example" "/"
              EmptyString EmptyString EmptyString)
  /\ Urllib.hostname (Urllib.mkParse "https" "youtube.com@evil.example" "/"
                        EmptyString EmptyString EmptyString)
     = Some "evil.example"
  /\ Str.contains "youtube.com" "evil.example" = false
  /\ Str.contains "youtu.be" "evil.example" = false
  /\ is_valid_url "https://youtube.com@evil.example/" = Return true
  /\ ~ (forall url,
          is_valid_url url = Return true <->
          exists r, Urllib.urlparse url = Return r
                    /\ (Urllib.scheme r = "http" \/ Urllib.scheme r = "https")
                    /\ host_contains_youtube r = true).
Proof.
  repeat (split; [reflexivity |]).
  intros H.
  destruct (proj1 (H "https://youtube.com@evil.example/") eq_refl) as [r [E [_ C]]].
  injection E as <-. discriminate C.
Qed.

(** C2, at a URL with scheme [https] and host [youtube.com]. *)
Lemma is_valid_url_iff_netloc_witness :
  is_valid_url "https://youtube.com/watch?v=dQw4w9WgXcQ" = Return true.
Proof.
  apply (proj2 (proj2 (proj2 (is_valid_url_iff_netloc
                                "https://youtube.com/watch?v=dQw4w9WgXcQ")))
           (Urllib.mkParse "https" "youtube.com" "/watch" EmptyString
              "v=dQw4w9WgXcQ" EmptyString));
    reflexivity.
Defined.

(** C5, at a string that [urlparse] rejects. *)
Lemma is_valid_url_total_witness :
  Urllib.urlparse "http://[::1/youtube.com" = Raise (ValueError "Invalid IPv6 URL")
  /\ is_valid_url "http://[::1/youtube.com" = Return false.
Proof.
  split; [reflexivity |].
  apply (proj1 (proj2 (proj2 (is_valid_url_total "http://[::1/youtube.com")))
           (ValueError "Invalid IPv6 URL")).
  reflexivity.
Defined.

(** C5: [https://youtube.com:notaport/] is malformed, its port is no
    number and the [port] property of its parse result raises, and so is
    [https://youtube.com /x y], with spaces in host and path; [urlparse]
    accepts both and [is_valid_url] answers [True]. *)
Lemma malformed_accepted_counterexample :
  Urllib.urlparse "https://youtube.com:notaport/"
  = Return (Urllib.mkParse "https" "youtube.com:notaport" "/"
              EmptyString EmptyString EmptyString)
  /\ port (Urllib.mkParse "https" "youtube.com:notaport" "/"
             EmptyString EmptyString EmptyString)
     = Raise (ValueError "Port could not be cast to integer value as 'notaport'")
  /\ is_valid_url "https://youtube.com:notaport/" = Return true
  /\ Urllib.urlparse "https://youtube.com /x y"
     = Return (Urllib.mkParse "https" "youtube.com " "/x y"
                 EmptyString EmptyString EmptyString)
  /\ is_valid_url "https://youtube.com /x y" = Return true.
Proof.
  repeat split; reflexivity.
Qed.

(** C3, at the tokens ["medium"] and ["HIGHEST"]. *)
Lemma unrecognized_quality_falls_back_witness :
  main (pytube := Sample.pytube) (typed [watch_url; "medium"])
  = try_except
      (print msg_invalid_quality ;;
       print msg_processing ;;
       filepath <- download_video (pytube := Sample.pytube) watch_url "highest" ;;
       report filepath)%py
      main_except
      (mkWorld [] [banner; msg_qualities; prompt_url; prompt_quality] [])
  /\ run_script (pytube := Sample.pytube) (typed [watch_url; "HIGHEST"])
     = run_script (pytube := Sample.pytube) (typed [watch_url; "highest"]).
Proof.
  split.
  - apply (proj1 (unrecognized_quality_falls_back (os := Sample.os)
                    (pytube := Sample.pytube)
                    (typed [watch_url; "medium"]) watch_url "medium" []
                    eq_refl eq_refl)).
    reflexivity.
  - apply (proj2 (unrecognized_quality_falls_back (os := Sample.os)
                    (pytube := Sample.pytube)
                    (typed [watch_url; "HIGHEST"]) watch_url "HIGHEST" []
                    eq_refl eq_refl)).
    reflexivity.
Defined.

(** C4, when the collaborator answers "Video unavailable". *)
Lemma download_video_catches_exceptions_witness :
  download_video (pytube := pytube_unavailable) watch_url "highest" (typed [])
  = (Return None,
     mkWorld [] [error_message (PytubeError "Video unavailable")]
             [CallYouTube watch_url])
  /\ Str.contains "Video unavailable"
       (error_message (PytubeError "Video unavailable")) = true.
Proof.
  split; [| reflexivity].
  apply (proj1 (proj2 (proj2 (download_video_catches_exceptions
                                (pytube := pytube_unavailable)
                                watch_url "highest" (typed []))))).
  - reflexivity.
  - reflexivity.
  - reflexivity.
Defined.

(** C6, on a video with audio-only streams and on one without. *)
Lemma audio_only_selection_witness :
  download_video (pytube := Sample.pytube) watch_url "audio" (typed [])
  = (Return (Some "src/videos/video.webm"),
     mkWorld [] []
       [CallYouTube watch_url; CallStreams; CallFilterOnlyAudio; CallFirst;
        CallDownload VIDEOS_DIR])
  /\ download_video (pytube := pytube_video_only) watch_url "audio" (typed [])
     = (Return None,
        mkWorld [] [msg_no_stream]
          [CallYouTube watch_url; CallStreams; CallFilterOnlyAudio; CallFirst]).
Proof.
  split.
  - apply (proj2 (proj1 (audio_only_selection (fun _ => Return Sample.streams) file_of
                           watch_url (typed []) Sample.streams eq_refl eq_refl)
                    (Spec.mkStream 140 0 true) eq_refl)).
  - apply (proj2 (proj2 (audio_only_selection
                           (fun _ => Return video_only_streams) file_of
                           watch_url (typed []) video_only_streams eq_refl eq_refl))).
    intros d [<- | [<- | []]]; reflexivity.
Defined.

(** C7, on the sample streams: of the three streams at 720 none is audio-only
    and the first is fetched; likewise the first of the two at 360. *)
Lemma highest_and_lowest_selection_witness :
  Spec.selectStream Sample.streams Spec.Highest = Some (Spec.mkStream 22 720 false)
  /\ Spec.selectStream Sample.streams Spec.Lowest = Some (Spec.mkStream 18 360 false)
  /\ download_video (pytube := Sample.pytube) watch_url "highest" (typed [])
     = fetched (file_of (Spec.mkStream 22 720 false) VIDEOS_DIR) (typed [])
         [CallYouTube watch_url; CallStreams; CallGetHighestResolution;
          CallDownload VIDEOS_DIR]
  /\ download_video (pytube := Sample.pytube) watch_url "lowest" (typed [])
     = fetched (file_of (Spec.mkStream 18 360 false) VIDEOS_DIR) (typed [])
         [CallYouTube watch_url; CallStreams; CallGetLowestResolution;
          CallDownload VIDEOS_DIR].
Proof.
  split; [reflexivity | split; [reflexivity | split]].
  - apply (proj2 (proj1 (highest_and_lowest_selection
                           (fun _ => Return Sample.streams) file_of
                           watch_url (typed []) Sample.streams eq_refl eq_refl)
                    (Spec.mkStream 22 720 false) eq_refl)).
  - apply (proj2 (proj1 (proj2 (highest_and_lowest_selection
                                  (fun _ => Return Sample.streams) file_of
                                  watch_url (typed []) Sample.streams eq_refl eq_refl))
                    (Spec.mkStream 18 360 false) eq_refl)).
Defined.



(** C9: the host of [https://youtu.be@YOUTUBE.COM/] is [YOUTUBE.COM], which
    differs from [youtube.com] by letter case only, and [is_valid_url]
    answers [True], for the lower-case text in the user information. *)
Lemma userinfo_case_counterexample :
  Urllib.urlparse "https://youtu.be@YOUTUBE.COM/"
  = Return (Urllib.mkParse "https" "youtu.be@YOUTUBE.COM" "/"
              EmptyString EmptyString EmptyString)
  /\ fst (Urllib._hostinfo (Urllib.mkParse "https" "youtu.be@YOUTUBE.COM" "/"
                              EmptyString EmptyString EmptyString))
     = "YOUTUBE.COM"
  /\ Str.lower "YOUTUBE.COM" = "youtube.com"
  /\ "YOUTUBE.COM" <> "youtube.com"
  /\ is_valid_url "https://youtu.be@YOUTUBE.COM/" = Return true.
Proof.
  repeat (split; [reflexivity |]).
  split; [discriminate | reflexivity].
Qed.

(** C9, at [https://WWW.YOUTUBE.COM/watch?v=x] and [https://YouTube.com]. *)
Lemma is_valid_url_case_sensitive_witness :
  is_valid_url "https://WWW.YOUTUBE.COM/watch?v=x" = Return false
  /\ is_valid_url "https://YouTube.com" = Return false.
Proof.
  split.
  - apply (proj2 (proj1 is_valid_url_case_sensitive
                    "https" "WWW.YOUTUBE.COM" "/watch?v=x"
                    (or_intror eq_refl) eq_refl eq_refl)).
  - apply (proj2 is_valid_url_case_sensitive "https://YouTube.com"
             (Urllib.mkParse "https" "YouTube.com" EmptyString EmptyString
                EmptyString EmptyString)).
    + reflexivity.
    + now left.
    + discriminate.
Defined.

(** C10, at the quality ["medium"]. *)
Lemma download_video_unknown_quality_witness :
  download_video (pytube := Sample.pytube) watch_url "medium" (typed [])
  = (Return None, mkWorld [] [msg_no_stream] [CallYouTube watch_url]).
Proof.
  apply (download_video_unknown_quality (pytube := Sample.pytube)
           watch_url "medium" (typed []) Sample.streams);
    try reflexivity; discriminate.
Defined.

End Runs.

(** * Further properties of the script *)

(** ** What [download_video] does to the world *)

Section DownloaderEffects.
Context {checks : Urllib.Checks} {pytube : Pytube}.

(** Splits [download_video] into every way its pytube calls can end. *)
Ltac each_run :=
  unfold download_video, try_except, download_video_try, download_video_except,
    call_plan, bind, lift, collaborator, print, ret;
  repeat (match goal with
          | |- context [is_valid_url ?u] =>
              let V := fresh "V" in destruct (is_valid_url u) as [[|] | ?] eqn:V
          | |- context [String.eqb ?q ?k] => destruct (String.eqb q k)
          | |- context [YouTube ?u] => destruct (YouTube u) as [? | ?]
          | |- context [streams ?y] => destruct (streams y) as [? | ?]
          | |- context [get_highest_resolution ?q] =>
              destruct (get_highest_resolution q) as [[? |] | ?]
          | |- context [get_lowest_resolution ?q] =>
              destruct (get_lowest_resolution q) as [[? |] | ?]
          | |- context [filter_only_audio ?q] => destruct (filter_only_audio q) as [? | ?]
          | |- context [first ?q] => destruct (first q) as [[? |] | ?]
          | |- context [download ?s ?d] => destruct (download s d) as [? | ?]
          | |- context [is_PytubeError ?e] => destruct (is_PytubeError e)
          | |- context [is_Exception ?e] => destruct (is_Exception e)
          end;
          cbn [negb fst snd stdin stdout calls]);
  rewrite <- ?app_assoc; cbn [app].

(** Closes one run of [download_video_follows_plan], the calls made given
    or found. *)
Ltac plan_followed :=
  split;
  [ reflexivity
  | split; [reflexivity | split; intros; try discriminate; reflexivity] ].

(** X1.  [download_video] never reads from standard input, and the pytube
    calls it makes are the beginning of one fixed sequence: [YouTube(url)],
    then [streams] and the selection of the quality, then one [download]
    into [VIDEOS_DIR]; it returns a path only after the whole sequence, and
    makes no call at all for a URL that is not valid. *)
Theorem download_video_follows_plan (url quality : string) (w : world) :
  stdin (snd (download_video url quality w)) = stdin w
  /\ exists done todo,
       calls (snd (download_video url quality w)) = (calls w ++ done)%list
       /\ call_plan url quality = (done ++ todo)%list
       /\ (forall p, fst (download_video url quality w) = Return (Some p) -> todo = [])
       /\ (is_valid_url url = Return false -> done = []).
Proof.
  each_run; (split; [reflexivity |]);
    first [ exists []; eexists; rewrite app_nil_r; plan_followed
          | eexists; eexists; plan_followed ].
Qed.

(** X2.  [download_video] prints exactly one message when it returns
    [None], and nothing when it returns a path or lets an exception
    through. *)
Theorem download_video_prints_once (url quality : string) (w : world) :
  match fst (download_video url quality w) with
  | Return None => exists m, stdout (snd (download_video url quality w))
                             = (stdout w ++ [m])%list
  | Return (Some _) | Raise _ => stdout (snd (download_video url quality w)) = stdout w
  end.
Proof.
  each_run; try reflexivity; eexists; reflexivity.
Qed.

(** Runs [download_video] along answers of pytube given as equations. *)
Ltac run_with V Y S :=
  rewrite (download_video_valid _ _ _ V);
  unfold try_except, download_video_try, bind, collaborator, ret;
  rewrite ?String.eqb_refl;
  rewrite Y; cbn [stdin stdout calls];
  rewrite S; cbn [stdin stdout calls].

(** X13.  When every pytube call answers, [download_video] downloads the
    very stream that the selection of the quality returned, into
    [VIDEOS_DIR], and returns the path that [download] gave, printing
    nothing: for ["highest"] the stream of [get_highest_resolution()], for
    ["lowest"] that of [get_lowest_resolution()], for ["audio"] the
    [first()] of [filter(only_audio=True)]. *)
Theorem download_video_returns_downloaded_path (url : string) (w : world)
    (yt : YT) (q : StreamQuery) (s : Stream) (p : string) :
  is_valid_url url = Return true ->
  YouTube url = Return yt ->
  streams yt = Return q ->
  download s VIDEOS_DIR = Return p ->
  (get_highest_resolution q = Return (Some s) ->
   download_video url "highest" w
   = (Return (Some p),
      mkWorld (stdin w) (stdout w)
        (calls w ++ [CallYouTube url; CallStreams; CallGetHighestResolution;
                     CallDownload VIDEOS_DIR])%list))
  /\ (get_lowest_resolution q = Return (Some s) ->
      download_video url "lowest" w
      = (Return (Some p),
         mkWorld (stdin w) (stdout w)
           (calls w ++ [CallYouTube url; CallStreams; CallGetLowestResolution;
                        CallDownload VIDEOS_DIR])%list))
  /\ (forall q',
        filter_only_audio q = Return q' ->
        first q' = Return (Some s) ->
        download_video url "audio" w
        = (Return (Some p),
           mkWorld (stdin w) (stdout w)
             (calls w ++ [CallYouTube url; CallStreams; CallFilterOnlyAudio; CallFirst;
                          CallDownload VIDEOS_DIR])%list)).
Proof.
  intros V Y S D. split; [| split].
  - intros G. run_with V Y S. rewrite G. cbn [stdin stdout calls]. rewrite D.
    now rewrite <- !app_assoc.
  - intros G. run_with V Y S.
    replace (String.eqb "lowest" "highest") with false by reflexivity.
    cbn [stdin stdout calls]. rewrite G. cbn [stdin stdout calls].
    rewrite D. now rewrite <- !app_assoc.
  - intros q' F G. run_with V Y S.
    replace (String.eqb "audio" "highest") with false by reflexivity.
    replace (String.eqb "audio" "lowest") with false by reflexivity.
    cbn [stdin stdout calls]. rewrite F. cbn [stdin stdout calls].
    rewrite G. cbn [stdin stdout calls]. rewrite D. now rewrite <- !app_assoc.
Qed.

End DownloaderEffects.

(** ** What [main] does around [download_video] *)

Section ShellEffects.
Context {checks : Urllib.Checks} {pytube : Pytube} {os : OperatingSystem}.

Lemma main_unhandled (w w1 : world) (e : exn) :
  makedirs VIDEOS_DIR = Return tt ->
  main_try (printed w [banner]) = (Raise e, w1) ->
  is_KeyboardInterrupt e = false ->
  main w = (Raise e, w1).
Proof.
  intros D T K. rewrite (main_started w D). unfold try_except, main_except.
  now rewrite T, K.
Qed.

(** X3.  The output directory is made before the [try] of [main]: when
    [os.makedirs] raises, the exception leaves [main] at once, with nothing
    printed, nothing read and pytube not called, and for an exception of
    class [Exception] the script ends with status 1. *)
Theorem setup_failure_stops_main (w : world) (e : exn) :
  makedirs VIDEOS_DIR = Raise e ->
  main w = (Raise e, w)
  /\ (is_Exception e = true -> run_script w = (1, w)).
Proof.
  intros D.
  assert (E : main w = (Raise e, w)).
  { unfold main, setup_environment, bind, lift. now rewrite D. }
  split; [exact E |].
  intros X. unfold run_script. rewrite E. now destruct e.
Qed.

(** X4.  [main] handles [KeyboardInterrupt] only: any other exception at a
    prompt, such as the [EOFError] of an input that has ended, leaves [main]
    after the prompts printed so far, with no cancellation message and
    without a pytube call. *)
Theorem prompt_failure_leaves_main (w : world) :
  makedirs VIDEOS_DIR = Return tt ->
  (stdin w = [] ->
   main w = (Raise (EOFError "EOF when reading a line"),
             mkWorld [] (stdout w ++ [banner; msg_qualities; prompt_url])%list (calls w)))
  /\ (forall u,
        stdin w = [Return u] ->
        main w = (Raise (EOFError "EOF when reading a line"),
                  mkWorld []
                    (stdout w ++ [banner; msg_qualities; prompt_url; prompt_quality])%list
                    (calls w)))
  /\ (forall e rest,
        stdin w = Raise e :: rest ->
        is_KeyboardInterrupt e = false ->
        main w = (Raise e,
                  mkWorld rest (stdout w ++ [banner; msg_qualities; prompt_url])%list
                    (calls w)))
  /\ (forall u e rest,
        stdin w = Return u :: Raise e :: rest ->
        is_KeyboardInterrupt e = false ->
        main w = (Raise e,
                  mkWorld rest
                    (stdout w ++ [banner; msg_qualities; prompt_url; prompt_quality])%list
                    (calls w))).
Proof.
  intros D.
  assert (R : forall e w1,
             main_try (printed w [banner]) = (Raise e, w1) ->
             is_KeyboardInterrupt e = false -> main w = (Raise e, w1))
    by (intros e w1; now apply main_unhandled).
  repeat split.
  - intros I. apply R; [| reflexivity].
    unfold main_try, get_user_input, bind, print, input, printed;
      cbn [stdin stdout calls]. rewrite I. now rewrite <- !app_assoc.
  - intros u I. apply R; [| reflexivity].
    unfold main_try, get_user_input, bind, print, input, printed;
      cbn [stdin stdout calls]. rewrite I. cbn [stdin stdout calls].
    now rewrite <- !app_assoc.
  - intros e rest I K. apply R; [| exact K].
    unfold main_try, get_user_input, bind, print, input, printed;
      cbn [stdin stdout calls]. rewrite I. now rewrite <- !app_assoc.
  - intros u e rest I K. apply R; [| exact K].
    unfold main_try, get_user_input, bind, print, input, printed;
      cbn [stdin stdout calls]. rewrite I. cbn [stdin stdout calls].
    now rewrite <- !app_assoc.
Qed.

(** X5.  For a URL that [is_valid_url] answers [False] for, the script
    prints the invalid-URL message of [download_video] and then the failure
    message of [main], calls pytube not once and ends with status 0, whatever
    quality was typed. *)
Theorem invalid_url_run (w : world) (u ql : string) (rest : list (outcome string)) :
  makedirs VIDEOS_DIR = Return tt ->
  stdin w = Return u :: Return ql :: rest ->
  is_valid_url (Whitespace.strip u) = Return false ->
  run_script w
  = (0, printed (at_download w rest (typed_quality ql)) [msg_invalid_url; msg_failed]).
Proof.
  intros D I V. apply (run_completed w _ D).
  rewrite (main_try_download w u ql rest I).
  unfold download_video, bind, lift. rewrite V.
  unfold print, ret, report, printed; cbn [negb stdin stdout calls].
  unfold print; cbn [stdin stdout calls].
  now rewrite <- !app_assoc.
Qed.

Lemma mem_supported (s : string) :
  Str.mem s SUPPORTED_QUALITIES = true ->
  s = "highest" \/ s = "lowest" \/ s = "audio".
Proof.
  unfold Str.mem, SUPPORTED_QUALITIES. cbn [existsb].
  rewrite orb_false_r, !orb_true_iff, !String.eqb_eq. tauto.
Qed.

(** X6.  Whatever is typed as quality, [main] calls [download_video] with
    one of ["highest"], ["lowest"] and ["audio"]: with the output directory in
    place and both prompts answered, what [main] does after the messages is
    the call of [download_video] on the stripped URL and that quality, then
    the report, under its [except KeyboardInterrupt].  A token that is one of
    the three up to letter case is passed on in lower case, every other token
    as ["highest"]. *)
Theorem main_passes_supported_quality (w : world) (u ql : string)
    (rest : list (outcome string)) :
  makedirs VIDEOS_DIR = Return tt ->
  stdin w = Return u :: Return ql :: rest ->
  let quality := typed_quality ql in
  let call :=
    (filepath <- download_video (Whitespace.strip u) (effective_quality quality) ;;
     report filepath)%py in
  main w = try_except call main_except (at_download w rest quality)
  /\ run_script w
     = script_status (try_except call main_except (at_download w rest quality))
  /\ (effective_quality quality = "highest"
      \/ effective_quality quality = "lowest"
      \/ effective_quality quality = "audio")
  /\ (Str.mem (Str.lower quality) SUPPORTED_QUALITIES = true ->
      effective_quality quality = Str.lower quality)
  /\ (Str.mem (Str.lower quality) SUPPORTED_QUALITIES = false ->
      effective_quality quality = "highest").
Proof.
  intros D I quality call.
  assert (E : main w = try_except call main_except (at_download w rest quality)).
  { rewrite (main_started w D). apply try_except_alike.
    now apply main_try_download. }
  split; [exact E | split; [now rewrite run_script_status, E |]].
  unfold effective_quality, recognized.
  destruct (Str.mem (Str.lower quality) SUPPORTED_QUALITIES) eqn:R.
  - split; [now apply mem_supported | split; [reflexivity | discriminate]].
  - split; [now left | split; [discriminate | reflexivity]].
Qed.

(** X7.  The size of the file is read after the first two success messages
    are printed: when [os.path.getsize] raises an exception other than
    [KeyboardInterrupt] for the downloaded file, "download done" and the path
    are already printed, no failure message follows and the exception leaves
    [main]. *)
Theorem size_failure_after_download (w : world) (u ql : string)
    (rest : list (outcome string)) (p : string) (e : exn) (wb : world) :
  makedirs VIDEOS_DIR = Return tt ->
  stdin w = Return u :: Return ql :: rest ->
  download_video (Whitespace.strip u) (effective_quality (typed_quality ql))
    (at_download w rest (typed_quality ql)) = (Return (Some p), wb) ->
  p <> EmptyString ->
  getsize p = Raise e ->
  is_KeyboardInterrupt e = false ->
  main w = (Raise e, printed wb [msg_done; msg_saved (abspath p)]).
Proof.
  intros D I V P G K. apply (main_unhandled w _ e D); [| exact K].
  rewrite (main_try_download w u ql rest I).
  unfold bind at 1. rewrite V. unfold report.
  apply String.eqb_neq in P. rewrite P.
  unfold bind, print, lift, printed; cbn [stdin stdout calls]. rewrite G.
  now rewrite <- !app_assoc.
Qed.

(** X8.  [download_video] catches nothing outside class [Exception]: a
    [KeyboardInterrupt] or [SystemExit] raised in its [try] block leaves it
    with no message printed.  So when the user interrupts [YouTube(url)], the
    script ends with status 1 after that one pytube call, the cancellation
    message being the only text printed after "processing". *)
Theorem interrupt_passes_download_video (url quality : string) (w : world) :
  is_valid_url url = Return true ->
  (forall e w1,
     download_video_try url quality w = (Raise e, w1) ->
     is_Exception e = false ->
     download_video url quality w = (Raise e, w1))
  /\ (YouTube url = Raise KeyboardInterrupt ->
      download_video url quality w
      = (Raise KeyboardInterrupt,
         mkWorld (stdin w) (stdout w) (calls w ++ [CallYouTube url])%list))
  /\ (forall w0 u ql rest,
        makedirs VIDEOS_DIR = Return tt ->
        stdin w0 = Return u :: Return ql :: rest ->
        url = Whitespace.strip u ->
        YouTube url = Raise KeyboardInterrupt ->
        run_script w0
        = (1, mkWorld rest
                (stdout (at_download w0 rest (typed_quality ql)) ++ [msg_cancelled])%list
                (calls w0 ++ [CallYouTube url])%list)).
Proof.
  intros V.
  assert (P : forall q w' e w1,
             download_video_try url q w' = (Raise e, w1) ->
             is_Exception e = false ->
             download_video url q w' = (Raise e, w1)).
  { intros q w' e w1 T X. rewrite (download_video_valid url q w' V).
    rewrite (try_caught _ w' w1 e T). now rewrite X. }
  assert (Y : forall q w',
             YouTube url = Raise KeyboardInterrupt ->
             download_video url q w'
             = (Raise KeyboardInterrupt,
                mkWorld (stdin w') (stdout w') (calls w' ++ [CallYouTube url])%list)).
  { intros q w' E. apply P; [| reflexivity].
    unfold download_video_try, bind, collaborator. now rewrite E. }
  split; [apply P | split; [apply Y |]].
  intros w0 u ql rest D I -> E.
  rewrite (run_interrupted w0
             (mkWorld rest (stdout (at_download w0 rest (typed_quality ql)))
                (calls w0 ++ [CallYouTube (Whitespace.strip u)])%list) D);
    [reflexivity |].
  rewrite (main_try_download w0 u ql rest I).
  unfold bind. now rewrite (Y _ _ E).
Qed.

End ShellEffects.

(** ** What [get_user_input] returns *)

Section Prompts.
Context {checks : Urllib.Checks} {pytube : Pytube} {os : OperatingSystem}.

Lemma skip_blank (s : string) :
  Str.all Whitespace.ws1 s = true -> Whitespace.skip false s = EmptyString.
Proof.
  induction s as [|a s IH]; simpl; [reflexivity |].
  intros H. apply andb_true_iff in H. destruct H as [H1 H2].
  rewrite H1. now apply IH.
Qed.

Lemma strip_blank (s : string) :
  Str.all Whitespace.ws1 s = true -> Whitespace.strip s = EmptyString.
Proof.
  intros H. unfold Whitespace.strip, Whitespace.lstrip.
  now rewrite (skip_blank s H).
Qed.

(** X9.  [get_user_input] never returns an empty quality: a line whose
    stripped form is empty, that is a line that is empty or made of white
    space only, ASCII or other such as U+00A0, gives ["highest"], which [main]
    takes without warning; a line whose stripped form is not empty is
    returned stripped.  It reads exactly two lines, prints the list of
    qualities and the two prompts, and calls pytube not once. *)
Theorem get_user_input_defaults (w : world) (u ql : string)
    (rest : list (outcome string)) :
  stdin w = Return u :: Return ql :: rest ->
  exists quality,
    get_user_input w
    = (Return (Whitespace.strip u, quality),
       mkWorld rest (stdout w ++ [msg_qualities; prompt_url; prompt_quality])%list
         (calls w))
    /\ quality <> EmptyString
    /\ (Whitespace.strip ql <> EmptyString -> quality = Whitespace.strip ql)
    /\ (Whitespace.strip ql = EmptyString ->
        quality = "highest" /\ recognized quality = true)
    /\ (Str.all Whitespace.ws1 ql = true ->
        quality = "highest" /\ recognized quality = true).
Proof.
  intros I. exists (typed_quality ql).
  split; [now apply get_user_input_answered |].
  unfold typed_quality.
  destruct (String.eqb (Whitespace.strip ql) EmptyString) eqn:E.
  - split; [discriminate |]. split; [| split].
    + intros N. apply String.eqb_eq in E. contradiction.
    + intros _. split; reflexivity.
    + intros _. split; reflexivity.
  - apply String.eqb_neq in E. split; [exact E |]. split; [reflexivity |]. split.
    + intros B. contradiction.
    + intros B. rewrite (strip_blank ql B) in E. contradiction.
Qed.

End Prompts.

(** ** More on the URL validator *)

Section ValidatorShapes.
Context {checks : Urllib.Checks}.
Import Str Urllib.

Lemma has_char_lstrip (c : ascii) (p : ascii -> bool) (s : string) :
  has_char c s = false -> has_char c (lstrip p s) = false.
Proof.
  induction s as [|d s IH]; simpl; [reflexivity |].
  intros H. destruct (p d); [| exact H].
  apply orb_false_iff in H. now apply IH.
Qed.

Lemma has_char_remove (c d : ascii) (s : string) :
  has_char c s = false -> has_char c (remove d s) = false.
Proof.
  induction s as [|x s IH]; simpl; [reflexivity |].
  intros H. apply orb_false_iff in H. destruct H as [H1 H2].
  destruct (Ascii.eqb d x); simpl; [now apply IH |].
  rewrite H1. now apply IH.
Qed.

Lemma urlsplit_without_colon (url : string) (r : SplitResult) :
  has_char ":" url = false ->
  urlsplit url = Return r ->
  split_scheme r = EmptyString.
Proof.
  intros C. unfold urlsplit.
  rewrite (StrFacts.find_absent ":"
             (remove LF (remove CR (remove TAB (lstrip is_c0_control_or_space url)))))
    by (repeat apply has_char_remove; now apply has_char_lstrip).
  unfold obind. cbv beta iota zeta.
  repeat match goal with
         | |- context [match ?x with _ => _ end] =>
             lazymatch x with
             | context [match _ with _ => _ end] => fail
             | _ => destruct x
             end
         end;
    intros H; try discriminate; injection H as <-; reflexivity.
Qed.

(** X10.  A string with no colon has no scheme, and [is_valid_url] answers
    [False] for it whatever else it holds: an address typed without
    [http://] or [https://] is rejected. *)
Theorem is_valid_url_needs_scheme (url : string) :
  has_char ":" url = false -> is_valid_url url = Return false.
Proof.
  intros C. unfold is_valid_url, is_valid_url_try, urlparse.
  destruct (urlsplit url) as [r | e] eqn:E; [| reflexivity].
  pose proof (urlsplit_without_colon url r C E) as S.
  destruct r as [sc nl pa qu fr]. cbn [split_scheme] in S. subst sc.
  cbn [obind].
  destruct (mem EmptyString uses_params && has_char ";" pa);
    [destruct (_splitparams pa) |]; reflexivity.
Qed.








Lemma lstrip_leading (p : ascii -> bool) (ws url : string) :
  all p ws = true -> lstrip p (ws ++ url) = lstrip p url.
Proof.
  induction ws as [|d ws IH]; simpl; [reflexivity |].
  intros H. apply andb_true_iff in H. destruct H as [H1 H2].
  rewrite H1. now apply IH.
Qed.

Lemma unsafe_removed (x y : string) (c : ascii) :
  c = TAB \/ c = CR \/ c = LF ->
  remove LF (remove CR (remove TAB (x ++ String c y)))
  = remove LF (remove CR (remove TAB (x ++ y))).
Proof.
  intros [-> | [-> | ->]]; rewrite !StrFacts.remove_append; simpl;
    rewrite ?StrFacts.remove_append; simpl;
    rewrite ?StrFacts.remove_append; simpl; reflexivity.
Qed.

Lemma normalized_alike (a b : string) (c : ascii) :
  c = TAB \/ c = CR \/ c = LF ->
  remove LF (remove CR (remove TAB (lstrip is_c0_control_or_space (a ++ String c b))))
  = remove LF (remove CR (remove TAB (lstrip is_c0_control_or_space (a ++ b)))).
Proof.
  intros C. induction a as [|d a IH].
  - cbn [append lstrip].
    replace (is_c0_control_or_space c) with true
      by (destruct C as [-> | [-> | ->]]; reflexivity).
    reflexivity.
  - cbn [append lstrip]. destruct (is_c0_control_or_space d); [exact IH |].
    apply (unsafe_removed (String d a) b c C).
Qed.

Lemma urlsplit_normalized_alike (u v : string) :
  remove LF (remove CR (remove TAB (lstrip is_c0_control_or_space u)))
  = remove LF (remove CR (remove TAB (lstrip is_c0_control_or_space v))) ->
  urlsplit u = urlsplit v.
Proof.
  intros H. unfold urlsplit. cbv zeta. now rewrite H.
Qed.

(** X12.  [is_valid_url] judges the string as [urlsplit] cleans it: control
    characters and spaces in front of it, and every tab, carriage return and
    line feed inside it, make no difference to the answer.  So
    [https://you<TAB>tube.com/] is answered [True] like
    [https://youtube.com/]. *)
Theorem is_valid_url_ignores_unsafe_characters :
  (forall ws url,
     all is_c0_control_or_space ws = true ->
     is_valid_url (ws ++ url) = is_valid_url url)
  /\ (forall a b c,
        c = TAB \/ c = CR \/ c = LF ->
        is_valid_url (a ++ String c b) = is_valid_url (a ++ b)).
Proof.
  assert (V : forall u v, urlsplit u = urlsplit v -> is_valid_url u = is_valid_url v).
  { intros u v E. unfold is_valid_url, is_valid_url_try, urlparse. now rewrite E. }
  split.
  - intros ws url W. apply V, urlsplit_normalized_alike.
    now rewrite (lstrip_leading _ ws url W).
  - intros a b c C. apply V, urlsplit_normalized_alike. now apply normalized_alike.
Qed.

End ValidatorShapes.

(** ** The further statements at work on sample inputs *)

Module MoreRuns.
Import Sample MoreSamples.

#[local] Existing Instance Sample.checks.

(** X1 and X2, on the download of the audio of the sample video. *)
Lemma download_video_follows_plan_witness :
  stdin (snd (download_video (pytube := Sample.pytube) watch_url "audio" (typed [])))
  = []
  /\ call_plan watch_url "audio"
     = calls (snd (download_video (pytube := Sample.pytube) watch_url "audio" (typed []))).
Proof.
  split.
  - apply (proj1 (download_video_follows_plan (pytube := Sample.pytube)
                    watch_url "audio" (typed []))).
  - reflexivity.
Defined.

Lemma download_video_prints_once_witness :
  exists m,
    stdout (snd (download_video (pytube := pytube_unavailable) watch_url "audio" (typed [])))
    = [m].
Proof.
  apply (download_video_prints_once (pytube := pytube_unavailable)
           watch_url "audio" (typed [])).
Defined.

(** X13, on the sample video at the lowest resolution. *)
Lemma download_video_returns_downloaded_path_witness :
  download_video (pytube := Sample.pytube) watch_url "lowest" (typed [])
  = (Return (Some "src/videos/video.mp4"),
     mkWorld [] []
       [CallYouTube watch_url; CallStreams; CallGetLowestResolution;
        CallDownload VIDEOS_DIR]).
Proof.
  apply (proj1 (proj2 (download_video_returns_downloaded_path (pytube := Sample.pytube)
                         watch_url (typed []) Sample.streams Sample.streams
                         (Spec.mkStream 18 360 false) "src/videos/video.mp4"
                         eq_refl eq_refl eq_refl eq_refl))).
  reflexivity.
Defined.

(** X3, on a read-only file system. *)
Lemma setup_failure_stops_main_witness :
  run_script (os := os_read_only) (pytube := Sample.pytube) (typed [watch_url; "audio"])
  = (1, typed [watch_url; "audio"]).
Proof.
  apply (proj2 (setup_failure_stops_main (os := os_read_only) (pytube := Sample.pytube)
                  (typed [watch_url; "audio"]) (OSError "Read-only file system")
                  eq_refl)).
  reflexivity.
Defined.

(** X4, when the input ends after the URL. *)
Lemma prompt_failure_leaves_main_witness :
  main (os := Sample.os) (pytube := Sample.pytube) (typed [watch_url])
  = (Raise (EOFError "EOF when reading a line"),
     mkWorld [] [banner; msg_qualities; prompt_url; prompt_quality] []).
Proof.
  apply (proj1 (proj2 (prompt_failure_leaves_main (os := Sample.os)
                         (pytube := Sample.pytube) (typed [watch_url]) eq_refl))
           watch_url eq_refl).
Defined.

(** X5, at ["not-a-url"] with an unknown quality. *)
Lemma invalid_url_run_witness :
  run_script (os := Sample.os) (pytube := Sample.pytube) (typed ["not-a-url"; "medium"])
  = (0, mkWorld []
          [banner; msg_qualities; prompt_url; prompt_quality; msg_invalid_quality;
           msg_processing; msg_invalid_url; msg_failed] []).
Proof.
  apply (invalid_url_run (os := Sample.os) (pytube := Sample.pytube)
           (typed ["not-a-url"; "medium"]) "not-a-url" "medium" [] eq_refl eq_refl).
  reflexivity.
Defined.

(** X6, at the token ["AUDIO"], typed between spaces. *)
Lemma main_passes_supported_quality_witness :
  main (os := Sample.os) (pytube := Sample.pytube) (typed [watch_url; " AUDIO "])
  = try_except
      (filepath <- download_video (pytube := Sample.pytube) watch_url "audio" ;;
       report (os := Sample.os) filepath)%py
      main_except
      (mkWorld []
         [banner; msg_qualities; prompt_url; prompt_quality; msg_processing] []).
Proof.
  apply (proj1 (main_passes_supported_quality (os := Sample.os)
                  (pytube := Sample.pytube)
                  (typed [watch_url; " AUDIO "]) watch_url " AUDIO " []
                  eq_refl eq_refl)).
Defined.

(** X7, when the downloaded file has gone before its size is read. *)
Lemma size_failure_after_download_witness :
  main (os := os_no_size) (pytube := Sample.pytube) (typed [watch_url; "highest"])
  = (Raise (OSError "No such file or directory"),
     mkWorld []
       [banner; msg_qualities; prompt_url; prompt_quality; msg_processing;
        msg_done; msg_saved "/home/user/src/videos/video.mp4"]
       [CallYouTube watch_url; CallStreams; CallGetHighestResolution;
        CallDownload VIDEOS_DIR]).
Proof.
  apply (size_failure_after_download (os := os_no_size) (pytube := Sample.pytube)
           (typed [watch_url; "highest"]) watch_url "highest" []
           "src/videos/video.mp4" (OSError "No such file or directory")
           (mkWorld []
              [banner; msg_qualities; prompt_url; prompt_quality; msg_processing]
              [CallYouTube watch_url; CallStreams; CallGetHighestResolution;
               CallDownload VIDEOS_DIR])
           eq_refl eq_refl);
    try reflexivity; discriminate.
Defined.

(** X8, when the user interrupts the resolution of the URL. *)
Lemma interrupt_passes_download_video_witness :
  run_script (os := Sample.os) (pytube := pytube_interrupted_early)
    (typed [watch_url; "lowest"])
  = (1, mkWorld []
          [banner; msg_qualities; prompt_url; prompt_quality; msg_processing;
           msg_cancelled]
          [CallYouTube watch_url]).
Proof.
  apply (proj2 (proj2 (interrupt_passes_download_video (os := Sample.os)
                         (pytube := pytube_interrupted_early)
                         watch_url "lowest" (typed []) eq_refl))
           (typed [watch_url; "lowest"]) watch_url "lowest" []
           eq_refl eq_refl eq_refl eq_refl).
Defined.

(** X9, when only spaces are typed as quality, and when a no-break space
    (U+00A0, the bytes 194 and 160) is. *)
Lemma get_user_input_defaults_witness :
  (exists quality,
     get_user_input (typed [watch_url; "   "])
     = (Return (watch_url, quality),
        mkWorld [] [msg_qualities; prompt_url; prompt_quality] [])
     /\ quality = "highest")
  /\ (exists quality,
        get_user_input
          (typed [watch_url; String "194" (String "160" EmptyString)])
        = (Return (watch_url, quality),
           mkWorld [] [msg_qualities; prompt_url; prompt_quality] [])
        /\ quality = "highest").
Proof.
  split.
  - destruct (get_user_input_defaults (typed [watch_url; "   "]) watch_url "   " []
                eq_refl) as [quality [E [_ [_ [_ B]]]]].
    exists quality. split; [exact E | exact (proj1 (B eq_refl))].
  - destruct (get_user_input_defaults
                (typed [watch_url; String "194" (String "160" EmptyString)])
                watch_url (String "194" (String "160" EmptyString)) []
                eq_refl) as [quality [E [_ [_ [B _]]]]].
    exists quality. split; [exact E | exact (proj1 (B eq_refl))].
Defined.

(** X10, at an address typed without scheme. *)
Lemma is_valid_url_needs_scheme_witness :
  is_valid_url "www.youtube.com/watch?v=dQw4w9WgXcQ" = Return false.
Proof.
  apply (is_valid_url_needs_scheme "www.youtube.com/watch?v=dQw4w9WgXcQ").
  reflexivity.
Defined.


(** X12, at a URL with a tab in its host and spaces in front. *)
Lemma is_valid_url_ignores_unsafe_characters_witness :
  is_valid_url ("  https://you" ++ String Urllib.TAB "tube.com/")
  = is_valid_url "https://youtube.com/".
Proof.
  rewrite (proj1 is_valid_url_ignores_unsafe_characters "  "
             ("https://you" ++ String Urllib.TAB "tube.com/") eq_refl).
  apply (proj2 is_valid_url_ignores_unsafe_characters "https://you" "tube.com/"
           Urllib.TAB).
  now left.
Defined.

End MoreRuns.
